(** * The XML2RFC v2 rendering backend of mmark (xml2rfcv2.go)

    A shallow embedding of the renderer [Xml2] and of the callbacks the
    document walker invokes on it.  The renderer writes into a
    [bytes.Buffer] and threads three pieces of state through the calls:
    the section level, the document level (front, main or back matter) and
    the pending inline attribute lists.  Every method is a computation in
    a state monad over the renderer and the buffer, with Go's run-time
    panics (slice bounds, [Truncate] out of range, nil dereference) as the
    one failure. *)

From Stdlib Require Import ZArith Lia.
From Stdlib Require Import Strings.Byte DecimalString.
From stdpp Require Import base list gmap strings fin_maps.

Set Default Proof Using "Type".

(** ** Bytes and Go's [int] *)

(** Go's [string] and [[]byte] are both byte sequences. *)
Definition bs (s : string) : list byte := String.list_byte_of_string s.
Arguments bs : simpl never.

(** The characters Go writes as an escape inside a literal. *)
Definition LF : list byte := [Byte.x0a].
Definition TAB : list byte := [Byte.x09].
Definition DQ : list byte := [Byte.x22].

(** [int] is the 64-bit two's complement integer of the usual targets. *)
Definition min_int : Z := (- 2 ^ 63)%Z.
Definition max_int : Z := (2 ^ 63 - 1)%Z.
Definition wrap (z : Z) : Z := ((z + 2 ^ 63) mod 2 ^ 64 - 2 ^ 63)%Z.
Definition is_int (z : Z) : Prop := (min_int ≤ z ≤ max_int)%Z.

Definition int_add (a b : Z) : Z := wrap (a + b).
Definition int_sub (a b : Z) : Z := wrap (a - b).

#[global] Instance byte_eq_dec : EqDecision byte := Byte.byte_eq_dec.

(** ** Results and the renderer monad *)

Inductive result (A : Type) : Type :=
  | Ok (a : A)
  | Panic.
Arguments Ok {A} a.
Arguments Panic {A}.

#[global] Instance result_ret : MRet result := @Ok.
#[global] Instance result_bind : MBind result := λ A B k r,
  match r with
  | Ok a => k a
  | Panic => Panic
  end.

(** Slicing and indexing, with the bounds checks of the Go run time.  For
    a slice the upper bound of [s[:hi]] is the capacity; every use below
    has [hi ≤ len(s)], where the two agree. *)
Definition len (s : list byte) : Z := Z.of_nat (length s).

Definition slice_to (s : list byte) (hi : Z) : result (list byte) :=
  if ((hi <? 0) || (len s <? hi))%Z then Panic
  else Ok (take (Z.to_nat hi) s).

Definition slice_from (s : list byte) (lo : Z) : result (list byte) :=
  if ((lo <? 0) || (len s <? lo))%Z then Panic
  else Ok (drop (Z.to_nat lo) s).

Definition at_index (s : list byte) (i : Z) : result byte :=
  if (i <? 0)%Z then Panic
  else match s !! Z.to_nat i with
       | Some b => Ok b
       | None => Panic
       end.

(** [bytes.Index(s, sep)]: the index of the first instance of [sep] in
    [s], or -1. *)
Fixpoint has_prefix (sep s : list byte) : bool :=
  match sep, s with
  | [], _ => true
  | _ :: _, [] => false
  | a :: sep', b :: s' => Byte.eqb a b && has_prefix sep' s'
  end.

Fixpoint Index_from (i : Z) (s sep : list byte) : Z :=
  if has_prefix sep s then i
  else match s with
       | [] => (-1)%Z
       | _ :: s' => Index_from (i + 1)%Z s' sep
       end.

Definition Index (s sep : list byte) : Z := Index_from 0 s sep.

(** ** Declarations of the package that live in other files

    xml2rfcv2.go uses constants, types and two helpers that the package
    declares elsewhere (xml2rfcv3.go, markdown.go, ...), and three
    functions of Go's library.  They are taken as parameters.  The
    constants of one [switch] are pairwise distinct: the Go compiler
    rejects duplicate cases. *)
Class Externals : Type := {
  XML_STANDALONE : Z;
  DOC_FRONT_MATTER : Z;
  DOC_MAIN_MATTER : Z;
  DOC_BACK_MATTER : Z;
  LIST_TYPE_ORDERED : Z;
  LIST_TYPE_DEFINITION : Z;
  LIST_TYPE_TERM : Z;
  LIST_ITEM_BEGINNING_OF_LIST : Z;
  LIST_INSIDE_LIST : Z;
  (* an inline attribute list, and its rendering as tag attributes *)
  IAL : Type;
  renderIAL : list IAL → list byte;
  (* a recorded citation: the fields this file reads, and the fallback
     file name derived from it *)
  citation : Type;
  typ : citation → byte;
  filename : citation → list byte;
  referenceFile : citation → list byte;
  (* fmt.Sprintf with one int argument, strconv.Itoa, time.Month.String *)
  Sprintf : list byte → Z → list byte;
  Itoa : Z → list byte;
  MonthString : Z → list byte;
  doc_front_main : DOC_FRONT_MATTER ≠ DOC_MAIN_MATTER;
  doc_front_back : DOC_FRONT_MATTER ≠ DOC_BACK_MATTER;
  doc_main_back : DOC_MAIN_MATTER ≠ DOC_BACK_MATTER;
}.

(** The title block: the fields [TitleBlockTOML] reads.  [Date] is a
    [time.Time]; the record holds what [Year()], [Month()] and [Day()]
    return. *)
Record address := { Email : list byte }.

Record author := {
  Initials : list byte;
  Surname : list byte;
  Fullname : list byte;
  Organization : list byte;
  Address : address;
}.

Record date := { Year : Z; Month : Z; Day : Z }.

Record title := {
  Title : list byte;
  Abbrev : list byte;
  DocName : list byte;
  Ipr : list byte;
  Category : list byte;
  Area : list byte;
  Workgroup : list byte;
  Keyword : list (list byte);
  Author : list author;
  Date : date;
}.

(** XML renderer configuration options. *)
Definition XML2_STANDALONE : Z := Z.shiftl 1 0. (* create standalone document *)

Section Renderer.
Context `{!Externals}.

(** ** The renderer *)

Record Xml2 := {
  flags : Z;                    (* XML_* options *)
  sectionLevel : Z;             (* current section level *)
  docLevel : Z;                 (* frontmatter/mainmatter or backmatter *)
  ial : list IAL;               (* the IAL seen for this block element *)
  titleBlock : option title;    (* TitleBlock in TOML; a pointer *)
}.

(** What a call can change: the renderer, the output buffer, and a ghost
    counter of the calls of [GetAndResetIAL] made so far (it is not state
    of the program; it makes "drains once" a statement). *)
Record World := {
  opts : Xml2;
  out : list byte;
  drains : nat;
}.

Definition M (A : Type) : Type := World → result (A * World).

Definition ret {A} (a : A) : M A := λ w, Ok (a, w).

Definition bind {A B} (m : M A) (k : A → M B) : M B :=
  λ w, match m w with
       | Ok (a, w') => k a w'
       | Panic => Panic
       end.

Definition lift {A} (r : result A) : M A :=
  λ w, match r with
       | Ok a => Ok (a, w)
       | Panic => Panic
       end.

Definition panic {A} : M A := λ _, Panic.

#[global] Instance M_ret : MRet M := @ret.
#[global] Instance M_bind : MBind M := λ A B k m, bind m k.

(** *** The output buffer: the methods of [bytes.Buffer] the file calls *)

Definition set_out (f : list byte → list byte) (w : World) : World :=
  {| opts := opts w; out := f (out w); drains := drains w |}.

Definition set_opts (f : Xml2 → Xml2) (w : World) : World :=
  {| opts := f (opts w); out := out w; drains := drains w |}.

Definition WriteString (s : list byte) : M unit :=
  λ w, Ok (tt, set_out (λ b, b ++ s) w).

Definition Write (p : list byte) : M unit := WriteString p.

Definition Len : M Z := λ w, Ok (len (out w), w).

(** [Truncate(n)] keeps the first [n] bytes; it panics when [n] is
    negative or beyond the length. *)
Definition Truncate (n : Z) : M unit :=
  λ w, if (n =? 0)%Z then Ok (tt, set_out (λ _, []) w)
       else if ((n <? 0) || (len (out w) <? n))%Z then Panic
       else Ok (tt, set_out (take (Z.to_nat n)) w).

(** *** Fields of the renderer *)

Definition get {A} (f : Xml2 → A) : M A := λ w, Ok (f (opts w), w).

Definition with_sectionLevel (n : Z) (o : Xml2) : Xml2 :=
  {| flags := flags o; sectionLevel := n; docLevel := docLevel o;
     ial := ial o; titleBlock := titleBlock o |}.

Definition with_docLevel (n : Z) (o : Xml2) : Xml2 :=
  {| flags := flags o; sectionLevel := sectionLevel o; docLevel := n;
     ial := ial o; titleBlock := titleBlock o |}.

Definition with_ial (i : list IAL) (o : Xml2) : Xml2 :=
  {| flags := flags o; sectionLevel := sectionLevel o;
     docLevel := docLevel o; ial := i; titleBlock := titleBlock o |}.

Definition with_titleBlock (t : option title) (o : Xml2) : Xml2 :=
  {| flags := flags o; sectionLevel := sectionLevel o;
     docLevel := docLevel o; ial := ial o; titleBlock := t |}.

Definition put (f : Xml2 → Xml2) : M unit := λ w, Ok (tt, set_opts f w).

(** [for i := n; i > 0; i-- { body }], where the body does not assign
    [i]: the body runs [n] times, and not at all when [n ≤ 0]. *)
Fixpoint repeat_body (n : nat) (body : M unit) : M unit :=
  match n with
  | O => mret tt
  | S k => body ;; repeat_body k body
  end.

Definition for_down (n : Z) (body : M unit) : M unit :=
  repeat_body (Z.to_nat n) body.

(** [for _, x := range xs { body x }] over a slice. *)
Fixpoint for_range {A} (xs : list A) (body : A → M unit) : M unit :=
  match xs with
  | [] => mret tt
  | x :: xs' => body x ;; for_range xs' body
  end.

(** ** The methods, in the order of the file *)

Definition Xml2Renderer (fl : Z) : Xml2 :=
  {| flags := fl; sectionLevel := 0; docLevel := 0; ial := [];
     titleBlock := None |}.

Definition GetFlags : M Z := get flags.

Definition SetIAL (i : list IAL) : M unit :=
  put (λ o, with_ial (ial o ++ i) o).

Definition GetAndResetIAL : M (list IAL) :=
  λ w, Ok (ial (opts w),
           {| opts := with_ial [] (opts w); out := out w;
              drains := S (drains w) |}).

Definition is_empty (s : list byte) : bool :=
  match s with [] => true | _ => false end.

Definition BlockCode (text lang caption : list byte) : M unit :=
  i ← GetAndResetIAL;
  let s := renderIAL i in
  (if is_empty lang
   then WriteString (LF ++ bs "<figure" ++ s ++ bs "><artwork>" ++ LF)
   else WriteString (LF ++ bs "<figure" ++ s ++ bs "><artwork>" ++ LF)) ;;
  Write text ;;
  if is_empty lang
  then WriteString (bs "</artwork></figure>" ++ LF)
  else WriteString (bs "</artwork></figure>" ++ LF).

Definition standalone_off (fl : Z) : bool := (Z.land fl XML_STANDALONE =? 0)%Z.

Definition deref {A} (p : option A) : M A :=
  match p with
  | Some a => mret a
  | None => panic
  end.

Definition TitleBlockTOML (block : option title) : M unit :=
  fl ← get flags;
  if standalone_off fl then mret tt else
  put (with_titleBlock block) ;;
  tb ← get titleBlock ≫= deref;
  WriteString (bs "<rfc ipr=" ++ DQ ++ Ipr tb ++ DQ ++ bs " category=" ++ DQ
               ++ Category tb ++ DQ ++ bs " docName=" ++ DQ ++ DocName tb
               ++ DQ ++ bs ">" ++ LF) ;;
  WriteString (bs "<front>" ++ LF) ;;
  WriteString (bs "<title abbrev=" ++ DQ ++ Abbrev tb ++ DQ ++ bs ">") ;;
  WriteString (Title tb ++ bs "</title>" ++ LF ++ LF) ;;
  for_range (Author tb) (λ a,
    WriteString (bs "<author") ;;
    WriteString (bs " initials=" ++ DQ ++ Initials a ++ DQ) ;;
    WriteString (bs " surname=" ++ DQ ++ Surname a ++ DQ) ;;
    WriteString (bs " fullname=" ++ DQ ++ Fullname a ++ DQ ++ bs ">" ++ LF) ;;
    WriteString (bs "<organization>" ++ Organization a
                 ++ bs "</organization>" ++ LF) ;;
    WriteString (bs "<address>" ++ LF) ;;
    WriteString (bs "<email>" ++ Email (Address a) ++ bs "</email>" ++ LF) ;;
    WriteString (bs "</address>" ++ LF) ;;
    WriteString (bs "</author>" ++ LF)) ;;
  let year := if (0 <? Year (Date tb))%Z
              then bs " year=" ++ DQ ++ Itoa (Year (Date tb)) ++ DQ else [] in
  let month := if (0 <? Month (Date tb))%Z
               then bs " month=" ++ DQ ++ MonthString (Month (Date tb)) ++ DQ
               else [] in
  let day := if (0 <? Day (Date tb))%Z
             then bs " day=" ++ DQ ++ Itoa (Day (Date tb)) ++ DQ else [] in
  WriteString (bs "<date" ++ year ++ month ++ day ++ bs "/>" ++ LF ++ LF) ;;
  WriteString (bs "<area>" ++ Area tb ++ bs "</area>" ++ LF) ;;
  WriteString (bs "<workgroup>" ++ Workgroup tb ++ bs "</workgroup>" ++ LF) ;;
  for_range (Keyword tb) (λ k,
    WriteString (bs "<keyword>" ++ k ++ bs "</keyword>" ++ LF)) ;;
  WriteString LF.

Definition BlockQuote (text : list byte) : M unit :=
  i ← GetAndResetIAL;
  let _ := renderIAL i in
  (* Fake a list paragraph *)
  WriteString (bs "<t><list style=" ++ DQ ++ bs "empty" ++ DQ ++ bs ">" ++ LF) ;;
  Write text ;;
  WriteString (bs "</list></t>" ++ LF).


Definition Aside (text : list byte) : M unit := BlockQuote text.

Definition Note (text : list byte) : M unit := BlockQuote text.

(** The scan [for i := 0; i < l; i++ { if text[i] == ':' { ...; break } }]
    of [CommentHtml]: the index at which it breaks, if it does. *)
Fixpoint find_colon (n : nat) (i : Z) (text : list byte) : result (option Z) :=
  match n with
  | O => Ok None
  | S k =>
      c ← at_index text i;
      if Byte.eqb c ":" then Ok (Some i)
      else find_colon k (int_add i 1) text
  end.

Definition CommentHtml (text : list byte) : M unit :=
  (* nothing fancy any left of the first `:` will be used as the source *)
  let i := Index text (bs "-->") in
  text ← lift (if (0 <? i)%Z then slice_to text i else Ok text);
  (* strip, <!-- *)
  text ← lift (slice_from text 4);
  let l := len text in
  let l := if (20 <? l)%Z then 20%Z else l in
  hit ← lift (find_colon (Z.to_nat l) 0 text);
  '(source, text) ← lift (match hit with
                          | Some i =>
                              source ← slice_to text i;
                              text' ← slice_from text (int_add i 1);
                              Ok (source, text')
                          | None => Ok ([], text)
                          end);
  (if negb (len source =? 0)%Z
   then
     source ← lift (c ← at_index source 0;
                    if Byte.eqb c " " then slice_from source 1
                    else Ok source);
     WriteString (bs "<t><cref source=" ++ DQ) ;;
     Write source ;;
     WriteString (DQ ++ bs ">")
   else WriteString (bs "<t><cref>" ++ LF)) ;;
  Write text ;;
  WriteString (bs "</cref></t>" ++ LF).

Definition BlockHtml (text : list byte) : M unit := mret tt.

Definition Header (text : M bool) (level : Z) (id : list byte) : M unit :=
  sl ← get sectionLevel;
  (if (level <=? sl)%Z
   then (* close previous ones *)
        for_down (int_add (int_sub sl level) 1)
                 (WriteString (bs "</section>" ++ LF))
   else mret tt) ;;
  (* new section *)
  i ← GetAndResetIAL;
  let _ := renderIAL i in
  WriteString (LF ++ bs "<section anchor=" ++ DQ ++ id ++ DQ) ;;
  WriteString (bs " title=" ++ DQ) ;;
  _ ← text;
  WriteString (DQ ++ bs ">" ++ LF) ;;
  put (with_sectionLevel level).

Definition HRule : M unit := mret tt.

Definition List (text : M bool) (fl start : Z) : M unit :=
  marker ← Len;
  i ← GetAndResetIAL;
  let s := renderIAL i in
  (* inside lists we should drop the paragraph *)
  (if (Z.land fl LIST_INSIDE_LIST =? 0)%Z
   then WriteString (bs "<t>" ++ LF) else mret tt) ;;
  (if negb (Z.land fl LIST_TYPE_ORDERED =? 0)%Z then
     if (start <=? 1)%Z
     then WriteString (bs "<list style=" ++ DQ ++ bs "numbers" ++ DQ ++ s
                       ++ bs ">" ++ LF)
     else WriteString (Sprintf (bs "<list style=" ++ DQ ++ bs "numbers" ++ DQ
                                ++ s ++ bs " start=" ++ DQ ++ bs "%d" ++ DQ
                                ++ bs ">" ++ LF) start)
   else if negb (Z.land fl LIST_TYPE_DEFINITION =? 0)%Z then
     WriteString (bs "<list style=" ++ DQ ++ bs "hanging" ++ DQ ++ s
                  ++ bs ">" ++ LF)
   else
     WriteString (bs "<list style=" ++ DQ ++ bs "symbols" ++ DQ ++ s
                  ++ bs ">" ++ LF)) ;;
  b ← text;
  if negb b then Truncate marker else
  (if negb (Z.land fl LIST_TYPE_ORDERED =? 0)%Z then
     WriteString (bs "</list>" ++ LF)
   else if negb (Z.land fl LIST_TYPE_DEFINITION =? 0)%Z then
     WriteString (bs "</t>" ++ LF ++ bs "</list>" ++ LF)
   else
     WriteString (bs "</list>" ++ LF)) ;;
  if (Z.land fl LIST_INSIDE_LIST =? 0)%Z
  then WriteString (bs "</t>" ++ LF) else mret tt.

(* Needs flags int, for in-list-detection xml2rfc v2 *)
Definition Paragraph (text : M bool) (fl : Z) : M unit :=
  marker ← Len;
  (if (Z.land fl LIST_TYPE_DEFINITION =? 0)%Z
   then WriteString (bs "<t>") else mret tt) ;;
  b ← text;
  if negb b then Truncate marker else
  if (Z.land fl LIST_TYPE_DEFINITION =? 0)%Z
  then WriteString (bs "</t>" ++ LF) else mret tt.

Definition Table (header body : list byte) (columnData : list Z)
    (caption : list byte) : M unit :=
  i ← GetAndResetIAL;
  let s := renderIAL i in
  WriteString (bs "<texttable" ++ s ++ bs ">" ++ LF) ;;
  Write header ;;
  Write body ;;
  WriteString (bs "</texttable>" ++ LF).

(** The loop that closes the open sections; [References],
    [DocumentFooter] and [DocumentMatter] each start with it:
    [for i := options.sectionLevel; i > 0; i-- { ...; options.sectionLevel-- }] *)
Definition close_sections : M unit :=
  sl ← get sectionLevel;
  for_down sl
    (WriteString (bs "</section>" ++ LF) ;;
     n ← get sectionLevel;
     put (with_sectionLevel (int_sub n 1))).

(** One [<?rfc include=...?>] line of a reference section. *)
Definition include_line (c : citation) : M unit :=
  let f := filename c in
  let f := if is_empty f then referenceFile c else f in
  WriteString (TAB ++ bs "<?rfc include=" ++ DQ ++ f ++ DQ ++ bs "?>" ++ LF).

(** The counting loop of [References]. *)
Definition count_refs (r : list (string * citation)) : Z * Z :=
  foldl (λ '(refi, refn) kc,
           let refi := if Byte.eqb (typ kc.2) "i" then int_add refi 1
                       else refi in
           let refn := if Byte.eqb (typ kc.2) "n" then int_add refn 1
                       else refn in
           (refi, refn))
        (0%Z, 0%Z) r.

(** [References] ranges three times over the map [citations].  Go leaves
    the order of a [range] over a map unspecified, and it may differ from
    one loop to the next: [r1], [r2] and [r3] are the sequences of entries
    the three loops visit. *)
Definition References_in_order (r1 r2 r3 : list (string * citation)) : M unit :=
  fl ← get flags;
  if standalone_off fl then mret tt else
  (* close any option section tags *)
  close_sections ;;
  dl ← get docLevel;
  (if (dl =? DOC_FRONT_MATTER)%Z then
     WriteString (bs "</front>" ++ LF) ;;
     WriteString (bs "<back>" ++ LF)
   else if (dl =? DOC_MAIN_MATTER)%Z then
     WriteString (bs "</middle>" ++ LF) ;;
     WriteString (bs "<back>" ++ LF)
   else if (dl =? DOC_BACK_MATTER)%Z then
     mret tt (* nothing to do *)
   else mret tt) ;;
  put (with_docLevel DOC_BACK_MATTER) ;;
  (* count the references *)
  let '(refi, refn) := count_refs r1 in
  if (0 <? int_add refi refn)%Z then
    (if (0 <? refi)%Z then
       WriteString (bs "<references title=" ++ DQ
                    ++ bs "Informative References" ++ DQ ++ bs ">" ++ LF) ;;
       for_range r2 (λ kc,
         if Byte.eqb (typ kc.2) "i" then include_line kc.2 else mret tt) ;;
       WriteString (bs "</references>" ++ LF)
     else mret tt) ;;
    if (0 <? refn)%Z then
      WriteString (bs "<references title=" ++ DQ
                   ++ bs "Normative References" ++ DQ ++ bs ">" ++ LF) ;;
      for_range r3 (λ kc,
        if Byte.eqb (typ kc.2) "n" then include_line kc.2 else mret tt) ;;
      WriteString (bs "</references>" ++ LF)
    else mret tt
  else mret tt.

(** A run of [References] on the map: one run for every choice of the
    three orders. *)
Definition References (citations : gmap string citation)
    (w : World) (r : result (unit * World)) : Prop :=
  ∃ r1 r2 r3,
    r1 ≡ₚ map_to_list citations ∧ r2 ≡ₚ map_to_list citations ∧
    r3 ≡ₚ map_to_list citations ∧ References_in_order r1 r2 r3 w = r.

(* header and footer *)
Definition DocumentHeader (first : bool) : M unit :=
  fl ← get flags;
  if negb first || standalone_off fl then mret tt else
  WriteString (bs "<?xml version=" ++ DQ ++ bs "1.0" ++ DQ ++ bs " encoding="
               ++ DQ ++ bs "UTF-8" ++ DQ ++ bs "?>" ++ LF) ;;
  WriteString (bs "<!DOCTYPE rfc SYSTEM 'rfc2629.dtd' [ ]>" ++ LF).

Definition DocumentFooter (first : bool) : M unit :=
  fl ← get flags;
  if negb first || standalone_off fl then mret tt else
  (* close any option section tags *)
  close_sections ;;
  dl ← get docLevel;
  (if (dl =? DOC_FRONT_MATTER)%Z then WriteString (LF ++ bs "</front>" ++ LF)
   else if (dl =? DOC_MAIN_MATTER)%Z then
     WriteString (LF ++ bs "</middle>" ++ LF)
   else if (dl =? DOC_BACK_MATTER)%Z then
     WriteString (LF ++ bs "</back>" ++ LF)
   else mret tt) ;;
  WriteString (bs "</rfc>" ++ LF).

Definition DocumentMatter (matter : Z) : M unit :=
  (* we default to frontmatter already openened in the documentHeader *)
  close_sections ;;
  (if (matter =? DOC_FRONT_MATTER)%Z then
     mret tt (* already open *)
   else if (matter =? DOC_MAIN_MATTER)%Z then
     WriteString (bs "</front>" ++ LF) ;;
     WriteString (LF ++ bs "<middle>" ++ LF)
   else if (matter =? DOC_BACK_MATTER)%Z then
     WriteString (LF ++ bs "</middle>" ++ LF) ;;
     WriteString (bs "<back>" ++ LF)
   else mret tt) ;;
  put (with_docLevel matter).

(** *** The other methods of the renderer

    [TableHeaderCell], [AutoLink] and [CodeSpan] use constants and a
    helper of other files ([TABLE_ALIGNMENT_LEFT], [LINK_TYPE_EMAIL],
    [convertEntity]) and are not embedded. *)

Definition GetState : M Z := mret 0%Z.

Definition ListItem (text : list byte) (fl : Z) : M unit :=
  if negb (Z.land fl LIST_TYPE_DEFINITION =? 0)%Z
     && (Z.land fl LIST_TYPE_TERM =? 0)%Z
  then Write text
  else if negb (Z.land fl LIST_TYPE_TERM =? 0)%Z then
    (if (Z.land fl LIST_ITEM_BEGINNING_OF_LIST =? 0)%Z
     then WriteString (bs "</t>" ++ LF) else mret tt) ;;
    (* close previous one?/ *)
    WriteString (bs "<t hangText=" ++ DQ) ;;
    Write text ;;
    WriteString (DQ ++ bs ">" ++ LF)
  else
    WriteString (bs "<t>") ;;
    Write text ;;
    WriteString (bs "</t>" ++ LF).

Definition TableRow (text : list byte) : M unit :=
  Write text ;;
  WriteString LF.

Definition TableCell (text : list byte) (align : Z) : M unit :=
  WriteString (bs "<c>") ;;
  Write text ;;
  WriteString (bs "</c>").

Definition Footnotes (text : M bool) : M unit := mret tt.

Definition FootnoteItem (name text : list byte) (fl : Z) : M unit := mret tt.

Definition Citation (link title : list byte) : M unit :=
  if (len title =? 0)%Z
  then WriteString (bs "<xref target=" ++ DQ ++ link ++ DQ ++ bs "/>")
  else WriteString (bs "<xref target=" ++ DQ ++ link ++ DQ ++ bs "/>").

Definition DoubleEmphasis (text : list byte) : M unit :=
  WriteString (bs "<spanx style=" ++ DQ ++ bs "strong" ++ DQ ++ bs ">") ;;
  Write text ;;
  WriteString (bs "</spanx>").

Definition Emphasis (text : list byte) : M unit :=
  WriteString (bs "<spanx style=" ++ DQ ++ bs "emph" ++ DQ ++ bs ">") ;;
  Write text ;;
  WriteString (bs "</spanx>").

Definition Image (link title alt : list byte) : M unit :=
  i ← GetAndResetIAL;
  let _ := renderIAL i in
  if has_prefix (bs "http://") link || has_prefix (bs "https://") link
  then (* treat it like a link *)
    WriteString (bs "\href{") ;;
    Write link ;;
    WriteString (bs "}{") ;;
    Write alt ;;
    WriteString (bs "}")
  else
    WriteString (bs "\includegraphics{") ;;
    Write link ;;
    WriteString (bs "}").

Definition LineBreak : M unit :=
  WriteString (LF ++ bs "<vspace/>" ++ LF).

Definition Link (link title content : list byte) : M unit :=
  c ← lift (at_index link 0);
  link ← lift (if Byte.eqb c "#" then slice_from link 1 else Ok link);
  WriteString (bs "<xref target=" ++ DQ) ;;
  Write link ;;
  WriteString (DQ ++ bs "/>").

Definition RawHtmlTag (tag : list byte) : M unit := mret tt.

Definition TripleEmphasis (text : list byte) : M unit :=
  WriteString (bs "<spanx style=" ++ DQ ++ bs "strong" ++ DQ
               ++ bs "><spanx style=" ++ DQ ++ bs "emph" ++ DQ ++ bs ">") ;;
  Write text ;;
  WriteString (bs "</spanx></spanx>").

Definition StrikeThrough (text : list byte) : M unit := Write text.

Definition FootnoteRef (ref : list byte) (id : Z) : M unit := mret tt.

Definition Entity (entity : list byte) : M unit := Write entity.

Definition NormalText (text : list byte) : M unit := Write text.

End Renderer.

(** * Specification vocabulary

    What the methods write and count, stated on lists of bytes: the
    markers, tags and sections the properties below speak of. *)

Section Specification.
Context `{!Externals}.

Definition section_close : list byte := bs "</section>" ++ LF.

(** [n] section close markers in a row. *)
Definition section_closes (n : nat) : list byte :=
  mjoin (replicate n section_close).

(** The section level after [n] rounds of [options.sectionLevel--]. *)
Definition decremented (n : nat) (sl : Z) : Z :=
  Nat.iter n (λ z, int_sub z 1) sl.

(** The number of close markers [Header] writes, as the code computes it. *)
Definition Header_closes (sl level : Z) : nat :=
  if (level <=? sl)%Z then Z.to_nat (int_add (int_sub sl level) 1) else 0.

(** The world in which [Header] calls the title callback. *)
Definition Header_at_title (level : Z) (id : list byte) (w : World) : World :=
  {| opts := with_ial [] (opts w);
     out := out w ++ section_closes (Header_closes (sectionLevel (opts w)) level)
            ++ LF ++ bs "<section anchor=" ++ DQ ++ id ++ DQ
            ++ bs " title=" ++ DQ;
     drains := S (drains w) |}.

(** What [List] writes before it calls the content callback, [s] being
    the rendered attributes, and what it writes after it. *)
Definition List_open (fl start : Z) (s : list byte) : list byte :=
  (if (Z.land fl LIST_INSIDE_LIST =? 0)%Z then bs "<t>" ++ LF else [])
  ++ (if negb (Z.land fl LIST_TYPE_ORDERED =? 0)%Z then
        if (start <=? 1)%Z
        then bs "<list style=" ++ DQ ++ bs "numbers" ++ DQ ++ s ++ bs ">" ++ LF
        else Sprintf (bs "<list style=" ++ DQ ++ bs "numbers" ++ DQ ++ s
                      ++ bs " start=" ++ DQ ++ bs "%d" ++ DQ ++ bs ">" ++ LF)
               start
      else if negb (Z.land fl LIST_TYPE_DEFINITION =? 0)%Z then
        bs "<list style=" ++ DQ ++ bs "hanging" ++ DQ ++ s ++ bs ">" ++ LF
      else
        bs "<list style=" ++ DQ ++ bs "symbols" ++ DQ ++ s ++ bs ">" ++ LF).

Definition List_close (fl : Z) : list byte :=
  (if negb (Z.land fl LIST_TYPE_ORDERED =? 0)%Z then bs "</list>" ++ LF
   else if negb (Z.land fl LIST_TYPE_DEFINITION =? 0)%Z then
     bs "</t>" ++ LF ++ bs "</list>" ++ LF
   else bs "</list>" ++ LF)
  ++ (if (Z.land fl LIST_INSIDE_LIST =? 0)%Z then bs "</t>" ++ LF else []).

(** The world in which [List] calls the content callback. *)
Definition List_at_text (fl start : Z) (w : World) : World :=
  {| opts := with_ial [] (opts w);
     out := out w ++ List_open fl start (renderIAL (ial (opts w)));
     drains := S (drains w) |}.

Definition Paragraph_open (fl : Z) : list byte :=
  if (Z.land fl LIST_TYPE_DEFINITION =? 0)%Z then bs "<t>" else [].

Definition Paragraph_close (fl : Z) : list byte :=
  if (Z.land fl LIST_TYPE_DEFINITION =? 0)%Z then bs "</t>" ++ LF else [].




(** What [DocumentMatter] writes for the division it is asked to open. *)
Definition matter_markers (matter : Z) : list byte :=
  if (matter =? DOC_FRONT_MATTER)%Z then []
  else if (matter =? DOC_MAIN_MATTER)%Z then
    bs "</front>" ++ LF ++ LF ++ bs "<middle>" ++ LF
  else if (matter =? DOC_BACK_MATTER)%Z then
    LF ++ bs "</middle>" ++ LF ++ bs "<back>" ++ LF
  else [].

(** What [References] writes to get to back matter, from the division
    the renderer is in. *)
Definition back_markers (dl : Z) : list byte :=
  if (dl =? DOC_FRONT_MATTER)%Z then bs "</front>" ++ LF ++ bs "<back>" ++ LF
  else if (dl =? DOC_MAIN_MATTER)%Z then
    bs "</middle>" ++ LF ++ bs "<back>" ++ LF
  else [].

(** One line of a reference section: the file of the citation, or the
    name derived from the citation when it has none. *)
Definition reference_entry (c : citation) : list byte :=
  TAB ++ bs "<?rfc include=" ++ DQ
  ++ (if is_empty (filename c) then referenceFile c else filename c)
  ++ DQ ++ bs "?>" ++ LF.

(** A titled reference section for a group of citations; nothing for an
    empty group. *)
Definition reference_section (title : list byte)
    (group : list (string * citation)) : list byte :=
  match group with
  | [] => []
  | _ => bs "<references title=" ++ DQ ++ title ++ DQ ++ bs ">" ++ LF
         ++ mjoin (map (λ kc, reference_entry kc.2) group)
         ++ bs "</references>" ++ LF
  end.

Definition of_type (ty : byte) (kc : string * citation) : Prop :=
  typ kc.2 = ty.

#[global] Instance of_type_dec ty kc : Decision (of_type ty kc).
Proof. unfold of_type. apply _. Defined.

(** The comment up to its terminator: what
    [i := bytes.Index(text, "-->"); if i > 0 { text = text[:i] }] leaves. *)
Definition before_terminator (text : list byte) : list byte :=
  let i := Index text (bs "-->") in
  if (0 <? i)%Z then take (Z.to_nat i) text else text.

(** The index of the first colon among the first 20 bytes. *)
Definition colon_index (payload : list byte) : option nat :=
  fst <$> list_find (λ b, b = ":"%byte) (take 20 payload).

(** One leading space stripped. *)
Definition strip_space (source : list byte) : list byte :=
  match source with
  | b :: source' => if decide (b = " "%byte) then source' else source
  | [] => []
  end.

(** The annotation written for a payload: with the text before the first
    colon of the window as its source when that text is not empty. *)
Definition annotation (payload : list byte) : list byte :=
  match colon_index payload with
  | Some (S i) =>
      bs "<t><cref source=" ++ DQ ++ strip_space (take (S i) payload) ++ DQ
      ++ bs ">" ++ drop (S (S i)) payload ++ bs "</cref></t>" ++ LF
  | Some 0 =>
      bs "<t><cref>" ++ LF ++ drop 1 payload ++ bs "</cref></t>" ++ LF
  | None => bs "<t><cref>" ++ LF ++ payload ++ bs "</cref></t>" ++ LF
  end.

(** *** Vocabulary for runs of several calls *)

(** A callback that only writes: it returns, leaves the renderer as it
    is and appends to the buffer. *)
Definition writes_only (text : M bool) : Prop :=
  ∀ v, ∃ b x, text v = Ok (b, set_out (λ o, o ++ x) v).

(** A callback that writes and reports that it produced no content. *)
Definition writes_nothing_kept (text : M bool) : Prop :=
  ∀ v, ∃ x, text v = Ok (false, set_out (λ o, o ++ x) v).

(** What [DocumentFooter] writes to close the division the renderer is
    in. *)
Definition footer_markers (dl : Z) : list byte :=
  if (dl =? DOC_FRONT_MATTER)%Z then LF ++ bs "</front>" ++ LF
  else if (dl =? DOC_MAIN_MATTER)%Z then LF ++ bs "</middle>" ++ LF
  else if (dl =? DOC_BACK_MATTER)%Z then LF ++ bs "</back>" ++ LF
  else [].

(** A heading event of the walker: its level, its anchor and the bytes
    its title callback writes. *)
Record heading := { h_level : Z; h_id : list byte; h_title : list byte }.

(** The calls of [Header] for a sequence of headings. *)
Definition headings (hs : list heading) : M unit :=
  for_range hs (λ h, Header (Write (h_title h) ;; mret true)
                       (h_level h) (h_id h)).

(** The close markers a heading at [level] needs at section level [sl]. *)
Definition closes_for (sl level : Z) : nat :=
  if (level <=? sl)%Z then Z.to_nat (sl - level + 1) else 0.

Definition section_open (h : heading) : list byte :=
  LF ++ bs "<section anchor=" ++ DQ ++ h_id h ++ DQ
  ++ bs " title=" ++ DQ ++ h_title h ++ DQ ++ bs ">" ++ LF.

(** What a sequence of headings writes from section level [sl], and the
    section level it ends at. *)
Fixpoint headings_out (sl : Z) (hs : list heading) : list byte :=
  match hs with
  | [] => []
  | h :: hs' =>
      section_closes (closes_for sl (h_level h)) ++ section_open h
      ++ headings_out (h_level h) hs'
  end.

Fixpoint final_level (sl : Z) (hs : list heading) : Z :=
  match hs with
  | [] => sl
  | h :: hs' => final_level (h_level h) hs'
  end.

(** The close markers in [headings_out sl hs] together with those of a
    final flush, and the levels the headings jump over. *)
Fixpoint closes_written (sl : Z) (hs : list heading) : nat :=
  match hs with
  | [] => Z.to_nat sl
  | h :: hs' => closes_for sl (h_level h) + closes_written (h_level h) hs'
  end.

Fixpoint levels_skipped (sl : Z) (hs : list heading) : nat :=
  match hs with
  | [] => 0
  | h :: hs' => Z.to_nat (h_level h - sl - 1) + levels_skipped (h_level h) hs'
  end.

(** The item calls of the walker for a definition list, a term and
    its definition per entry: [ft0] are the flags of the first term,
    [ft] those of the later terms, [fd] those of the definitions. *)
Fixpoint definition_items (ft0 ft fd : Z)
    (items : list (list byte * list byte)) : M unit :=
  match items with
  | [] => mret tt
  | item :: items' =>
      ListItem item.1 ft0 ;; ListItem item.2 fd ;;
      definition_items ft ft fd items'
  end.

(** An entry of a definition list as one element: the term as hanging
    text, the definition inside. *)
Definition definition_entry (item : list byte * list byte) : list byte :=
  bs "<t hangText=" ++ DQ ++ item.1 ++ DQ ++ bs ">" ++ LF ++ item.2
  ++ bs "</t>" ++ LF.

(** The elements [TitleBlockTOML] writes for an author, for the date
    and for a keyword. *)
Definition author_element (a : author) : list byte :=
  bs "<author" ++ bs " initials=" ++ DQ ++ Initials a ++ DQ
  ++ bs " surname=" ++ DQ ++ Surname a ++ DQ
  ++ bs " fullname=" ++ DQ ++ Fullname a ++ DQ ++ bs ">" ++ LF
  ++ bs "<organization>" ++ Organization a ++ bs "</organization>" ++ LF
  ++ bs "<address>" ++ LF
  ++ bs "<email>" ++ Email (Address a) ++ bs "</email>" ++ LF
  ++ bs "</address>" ++ LF
  ++ bs "</author>" ++ LF.

Definition date_element (d : date) : list byte :=
  bs "<date"
  ++ (if (0 <? Year d)%Z then bs " year=" ++ DQ ++ Itoa (Year d) ++ DQ
      else [])
  ++ (if (0 <? Month d)%Z
      then bs " month=" ++ DQ ++ MonthString (Month d) ++ DQ else [])
  ++ (if (0 <? Day d)%Z then bs " day=" ++ DQ ++ Itoa (Day d) ++ DQ else [])
  ++ bs "/>" ++ LF ++ LF.

Definition keyword_element (k : list byte) : list byte :=
  bs "<keyword>" ++ k ++ bs "</keyword>" ++ LF.

End Specification.

(** * Concrete runs

  One admissible choice of the external declarations, to run the
  renderer on concrete documents. *)
Module Sample.

(** An attribute list as pairs of a name and a value. *)
Definition attrs : Type := list (list byte * list byte).

Definition render (l : list attrs) : list byte :=
  mjoin (map (λ '(k, v), bs " " ++ k ++ bs "=" ++ DQ ++ v ++ DQ) (mjoin l)).

Record cite := {
  c_typ : byte;
  c_filename : list byte;
  c_link : list byte;
}.

Definition ref_file (c : cite) : list byte :=
  bs "reference." ++ c_link c ++ bs ".xml".

Definition itoa (z : Z) : list byte :=
  bs (NilZero.string_of_int (Z.to_int z)).

(** The verb [%d] replaced by the argument, once. *)
Fixpoint sprintf (f : list byte) (z : Z) : list byte :=
  match f with
  | a :: (b :: f'') as f' =>
      if Byte.eqb a "%" && Byte.eqb b "d" then itoa z ++ f''
      else a :: sprintf f' z
  | _ => f
  end.

Definition month (m : Z) : list byte :=
  nth (Z.to_nat (m - 1))
    (map bs ["January"; "February"; "March"; "April"; "May"; "June";
             "July"; "August"; "September"; "October"; "November";
             "December"]%string)
    (bs "%!Month(" ++ itoa m ++ bs ")").

#[global] Instance env : Externals := {|
  XML_STANDALONE := 1;
  DOC_FRONT_MATTER := 1;
  DOC_MAIN_MATTER := 2;
  DOC_BACK_MATTER := 3;
  LIST_TYPE_ORDERED := 1;
  LIST_TYPE_DEFINITION := 2;
  LIST_TYPE_TERM := 4;
  LIST_ITEM_BEGINNING_OF_LIST := 16;
  LIST_INSIDE_LIST := 64;
  IAL := attrs;
  renderIAL := render;
  citation := cite;
  typ := c_typ;
  filename := c_filename;
  referenceFile := ref_file;
  Sprintf := sprintf;
  Itoa := itoa;
  MonthString := month;
  doc_front_main := ltac:(done);
  doc_front_back := ltac:(done);
  doc_main_back := ltac:(done);
|}.

(** A renderer in main matter, three sections deep, with one pending
    attribute list. *)
Definition deep : World :=
  {| opts := {| flags := 1; sectionLevel := 3; docLevel := 2;
                ial := [[(bs "anchor", bs "a1")]]; titleBlock := None |};
     out := bs "<t>text</t>" ++ LF;
     drains := 0 |}.

(** A title callback that writes the title. *)
Definition intro : M bool := WriteString (bs "Intro") ;; mret true.

(** A content callback that writes a word, and one that finds nothing
    to write. *)
Definition hello : M bool := WriteString (bs "hello") ;; mret true.
Definition nothing : M bool := mret false.

(** The same renderer in front matter, and with the standalone flag
    off. *)
Definition in_front : World := set_opts (with_docLevel 1) deep.

Definition embedded : World :=
  set_opts (λ o, {| flags := 0; sectionLevel := sectionLevel o;
                    docLevel := docLevel o; ial := ial o;
                    titleBlock := titleBlock o |}) deep.

(** A normative citation without a file, an informative one with a
    file, and one of neither type. *)
Definition rfc2119 : cite :=
  {| c_typ := "n"; c_filename := []; c_link := bs "RFC2119" |}.
Definition rfc7322 : cite :=
  {| c_typ := "i"; c_filename := bs "bib/rfc7322.xml";
     c_link := bs "RFC7322" |}.
Definition untyped : cite :=
  {| c_typ := "x"; c_filename := []; c_link := bs "RFC1" |}.

Definition cited : gmap string citation :=
  {[ "RFC2119"%string := rfc2119; "RFC7322"%string := rfc7322 ]}.

Definition stray : gmap string citation :=
  {[ "RFC1"%string := untyped ]}.

(** A content callback that writes a byte and reports no content. *)
Definition discarded : M bool := WriteString (bs "x") ;; mret false.

(** Headings at levels 1, 2, 2 and 1, and an outline that jumps from
    level 1 to level 3. *)
Definition outline : list heading :=
  [ {| h_level := 1; h_id := bs "a"; h_title := bs "A" |};
    {| h_level := 2; h_id := bs "b"; h_title := bs "B" |};
    {| h_level := 2; h_id := bs "c"; h_title := bs "C" |};
    {| h_level := 1; h_id := bs "d"; h_title := bs "D" |} ].

Definition jumping : list heading :=
  [ {| h_level := 1; h_id := bs "a"; h_title := bs "A" |};
    {| h_level := 3; h_id := bs "b"; h_title := bs "B" |} ].

Definition fresh : World :=
  {| opts := Xml2Renderer 1; out := []; drains := 0 |}.

(** The entries of a definition list, and the flags of the list, of
    its first term, of its later terms and of its definitions. *)
Definition glossary : list (list byte * list byte) :=
  [ (bs "IAL", bs "inline attribute list"); (bs "RFC", bs "a document") ].

Definition block : title :=
  {| Title := bs "A Title"; Abbrev := bs "Title"; DocName := bs "draft-x-00";
     Ipr := bs "trust200902"; Category := bs "info"; Area := bs "General";
     Workgroup := bs "None"; Keyword := [bs "xml"; bs "markdown"];
     Author := [ {| Initials := bs "A."; Surname := bs "Author";
                    Fullname := bs "An Author"; Organization := bs "Org";
                    Address := {| Email := bs "a@example.org" |} |} ];
     Date := {| Year := 2014; Month := 0; Day := 0 |} |}.

End Sample.

(** * Properties *)

(** Unfolds the monad and the buffer primitives of a straight-line run. *)
Ltac run :=
  unfold mbind, mret, M_bind, M_ret, bind, ret, get, put, lift, WriteString,
    Write, Len, GetAndResetIAL, set_out, set_opts; simpl.

(** Brings concatenations of byte strings to one right-nested form. *)
Ltac norm_app :=
  unfold bs, LF, TAB, DQ; repeat (rewrite <- ?app_assoc; progress simpl);
  rewrite <- ?app_assoc.

(** Two runs that call the callback [text] in worlds that differ in the
    grouping of the bytes written so far call it in the same world. *)
Ltac same_callback_world :=
  match goal with
  | |- match ?text ?a with _ => _ end = match ?text ?b with _ => _ end =>
      first
        [ constr_eq a b
        | replace a with b;
          [|unfold set_out; simpl; f_equal; rewrite ?app_nil_r; by norm_app] ]
  end.

(** Settles the tests [0 < count] on the lengths of known lists. *)
Ltac decide_counts :=
  simpl length;
  repeat match goal with
         | |- context [(0 <? ?z)%Z] =>
             destruct (Z.ltb_spec 0 z);
             [try (exfalso; simpl in *; lia)|try (exfalso; simpl in *; lia)]
         end.

Section Properties.
Context `{!Externals}.

(** ** Arithmetic of [int] *)

Lemma wrap_int (z : Z) : is_int z → wrap z = z.
Proof.
  unfold is_int, wrap, min_int, max_int. intros Hz.
  rewrite Z.mod_small; lia.
Qed.

Lemma int_sub_1 (z : Z) : (0 < z ≤ max_int)%Z → int_sub z 1 = (z - 1)%Z.
Proof.
  intros Hz. apply wrap_int. unfold is_int, min_int, max_int in *. lia.
Qed.

Lemma int_add_1 (z : Z) : (0 ≤ z < max_int)%Z → int_add z 1 = (z + 1)%Z.
Proof.
  intros Hz. apply wrap_int. unfold is_int, min_int, max_int in *. lia.
Qed.

(** ** Running the monad *)

Lemma bind_Ok {A B} (m : M A) (k : A → M B) w a w' :
  m w = Ok (a, w') → (m ≫= k) w = k a w'.
Proof. unfold mbind, M_bind, bind. by intros ->. Qed.

Lemma bind_Panic {A B} (m : M A) (k : A → M B) w :
  m w = Panic → (m ≫= k) w = Panic.
Proof. unfold mbind, M_bind, bind. by intros ->. Qed.

(** ** Loops *)

Lemma repeat_write (n : nat) (s : list byte) (w : World) :
  repeat_body n (WriteString s) w
  = Ok (tt, set_out (λ b, b ++ mjoin (replicate n s)) w).
Proof.
  revert w. induction n as [|n IH]; intros w.
  - destruct w. run. by rewrite app_nil_r.
  - simpl. erewrite bind_Ok; [|reflexivity]. rewrite IH.
    destruct w. run. by rewrite <- app_assoc.
Qed.

Lemma decremented_all (n : nat) :
  (Z.of_nat n ≤ max_int)%Z → decremented n (Z.of_nat n) = 0%Z.
Proof.
  unfold decremented. induction n as [|n IH]; intros Hn; [done|].
  rewrite Nat.iter_succ_r, int_sub_1 by lia.
  replace (Z.of_nat (S n) - 1)%Z with (Z.of_nat n) by lia.
  apply IH. lia.
Qed.

Lemma close_loop (n : nat) (w : World) :
  repeat_body n
    (WriteString (bs "</section>" ++ LF) ;;
     k ← get sectionLevel;
     put (with_sectionLevel (int_sub k 1))) w
  = Ok (tt, {| opts := with_sectionLevel
                         (decremented n (sectionLevel (opts w))) (opts w);
               out := out w ++ section_closes n;
               drains := drains w |}).
Proof.
  revert w. induction n as [|n IH]; intros w.
  - destruct w as [[] ? ?]. run. unfold section_closes. simpl.
    by rewrite app_nil_r.
  - simpl repeat_body. erewrite bind_Ok; [|reflexivity]. rewrite IH.
    destruct w as [[] ? ?]. unfold decremented. rewrite Nat.iter_succ_r.
    unfold section_closes, section_close. simpl.
    by rewrite <- app_assoc.
Qed.

Lemma close_sections_run (w : World) :
  let n := Z.to_nat (sectionLevel (opts w)) in
  close_sections w
  = Ok (tt, {| opts := with_sectionLevel
                         (decremented n (sectionLevel (opts w))) (opts w);
               out := out w ++ section_closes n;
               drains := drains w |}).
Proof.
  unfold close_sections, for_down.
  erewrite bind_Ok; [|reflexivity]. apply close_loop.
Qed.

(** With a section level that is a count of open sections, the loop
    brings it back to zero. *)
Lemma close_sections_reset (sl : Z) :
  (0 ≤ sl ≤ max_int)%Z → decremented (Z.to_nat sl) sl = 0%Z.
Proof.
  intros Hsl. rewrite <- (Z2Nat.id sl) at 2 by lia.
  apply decremented_all. lia.
Qed.

(** ** Headings *)

Lemma Header_run (text : M bool) (level : Z) (id : list byte) (w : World) :
  Header text level id w
  = match text (Header_at_title level id w) with
    | Ok (_, w2) =>
        Ok (tt, {| opts := with_sectionLevel level (opts w2);
                   out := out w2 ++ DQ ++ bs ">" ++ LF;
                   drains := drains w2 |})
    | Panic => Panic
    end.
Proof.
  unfold Header, Header_at_title, Header_closes.
  erewrite bind_Ok; [|reflexivity].
  assert (Hloop :
    (if (level <=? sectionLevel (opts w))%Z
     then for_down (int_add (int_sub (sectionLevel (opts w)) level) 1)
            (WriteString (bs "</section>" ++ LF))
     else mret tt) w
    = Ok (tt, set_out (λ b, b ++ section_closes
            (if (level <=? sectionLevel (opts w))%Z
             then Z.to_nat (int_add (int_sub (sectionLevel (opts w)) level) 1)
             else 0)) w)).
  { destruct (level <=? sectionLevel (opts w))%Z.
    - unfold for_down. by rewrite repeat_write.
    - destruct w. run. unfold section_closes. simpl. by rewrite app_nil_r. }
  erewrite bind_Ok; [|exact Hloop].
  erewrite bind_Ok; [|reflexivity].
  erewrite bind_Ok; [|reflexivity].
  erewrite bind_Ok; [|reflexivity].
  unfold mbind, M_bind, bind. same_callback_world.
  destruct (text _) as [[b w2]|]; [|done].
  run. by norm_app.
Qed.

(** Without overflow the count is the difference of the levels plus one. *)
Lemma Header_closes_exact (sl level : Z) :
  (sl - level + 1 ≤ max_int)%Z →
  Header_closes sl level
  = if (level <=? sl)%Z then Z.to_nat (sl - level + 1) else 0.
Proof.
  intros Hmax. unfold Header_closes.
  destruct (Z.leb_spec level sl) as [Hle|Hlt]; [|done].
  unfold int_add, int_sub.
  rewrite (wrap_int (sl - level)), wrap_int; [done| |];
    unfold is_int, min_int, max_int in *; lia.
Qed.

(** C1. For every heading call [Header(out, text, level, id)] whose count
    [sectionLevel - level + 1] fits an [int] (it does for every
    [level ≥ 1]): when [level ≤ sectionLevel], exactly
    [sectionLevel - level + 1] section close markers are written before
    the open marker of the new section, and none otherwise; then one open
    marker carrying the anchor [id] is written (the title callback writes
    the title inside it), and [sectionLevel] is set to [level]. *)
Theorem Header_closes_then_opens (text : M bool) (level : Z) (id : list byte)
    (w : World) (b : bool) (w2 : World) :
  let sl := sectionLevel (opts w) in
  let n := if (level <=? sl)%Z then Z.to_nat (sl - level + 1) else 0 in
  let w1 := {| opts := with_ial [] (opts w);
               out := out w ++ section_closes n
                      ++ LF ++ bs "<section anchor=" ++ DQ ++ id ++ DQ
                      ++ bs " title=" ++ DQ;
               drains := S (drains w) |} in
  (sl - level + 1 ≤ max_int)%Z →
  text w1 = Ok (b, w2) →
  ∃ w3, Header text level id w = Ok (tt, w3)
        ∧ out w3 = out w2 ++ DQ ++ bs ">" ++ LF
        ∧ sectionLevel (opts w3) = level.
Proof.
  intros sl n w1 Hmax Htext.
  rewrite Header_run. unfold Header_at_title.
  rewrite Header_closes_exact by done.
  fold sl n w1. rewrite Htext. eauto.
Qed.

(** C9. [Header] is never rolled back: whatever the title callback
    returns (also [false], no content), the section open marker stays in
    the buffer, the tag is closed after the title and [sectionLevel] is
    set to [level]; with a callback that does not cut the buffer, the
    buffer is strictly longer after every heading call. *)
Theorem Header_never_rolled_back (level : Z) (id : list byte) (w : World) :
  ∃ (n : nat) (w1 : World),
    out w1 = out w ++ section_closes n
             ++ LF ++ bs "<section anchor=" ++ DQ ++ id ++ DQ
             ++ bs " title=" ++ DQ
    ∧ ∀ (text : M bool) (b : bool) (w2 : World),
        text w1 = Ok (b, w2) →
        ∃ w3, Header text level id w = Ok (tt, w3)
              ∧ out w3 = out w2 ++ DQ ++ bs ">" ++ LF
              ∧ sectionLevel (opts w3) = level
              ∧ (length (out w1) ≤ length (out w2) →
                 length (out w) < length (out w3)).
Proof.
  exists (Header_closes (sectionLevel (opts w)) level),
         (Header_at_title level id w).
  split; [done|]. intros text b w2 Htext.
  rewrite Header_run, Htext. eexists. split; [done|]. simpl.
  split; [done|]. split; [done|].
  rewrite !length_app. simpl. lia.
Qed.

(** ** Blocks with a content callback *)

Lemma Truncate_back (n : nat) (w2 : World) :
  n ≤ length (out w2) →
  Truncate (Z.of_nat n) w2 = Ok (tt, set_out (take n) w2).
Proof.
  intros Hn. unfold Truncate, len.
  destruct (Z.eqb_spec (Z.of_nat n) 0) as [H0|H0].
  - by replace n with 0 by lia.
  - replace (Z.of_nat n <? 0)%Z with false by lia.
    replace (Z.of_nat (length (out w2)) <? Z.of_nat n)%Z with false by lia.
    simpl. by rewrite Nat2Z.id.
Qed.

Lemma Truncate_short (n : nat) (w2 : World) :
  length (out w2) < n → Truncate (Z.of_nat n) w2 = Panic.
Proof.
  intros Hn. unfold Truncate, len.
  replace (Z.of_nat n =? 0)%Z with false by lia.
  replace (Z.of_nat (length (out w2)) <? Z.of_nat n)%Z with true by lia.
  by rewrite orb_true_r.
Qed.

Lemma List_run (text : M bool) (fl start : Z) (w : World) :
  List text fl start w
  = match text (List_at_text fl start w) with
    | Ok (true, w2) => Ok (tt, set_out (λ b, b ++ List_close fl) w2)
    | Ok (false, w2) => Truncate (len (out w)) w2
    | Panic => Panic
    end.
Proof.
  unfold List, List_at_text, List_open, List_close.
  do 2 (erewrite bind_Ok; [|reflexivity]).
  unfold mbind, M_bind, bind.
  set (inside := (Z.land fl LIST_INSIDE_LIST =? 0)%Z).
  set (ordered := (Z.land fl LIST_TYPE_ORDERED =? 0)%Z).
  set (definition := (Z.land fl LIST_TYPE_DEFINITION =? 0)%Z).
  set (one := (start <=? 1)%Z).
  destruct inside, ordered, definition, one; run;
    same_callback_world;
    (destruct (text _) as [[[] w2]|]; [|done|done]);
    run; by rewrite ?app_nil_r, <- ?app_assoc.
Qed.

Lemma Paragraph_run (text : M bool) (fl : Z) (w : World) :
  Paragraph text fl w
  = match text (set_out (λ b, b ++ Paragraph_open fl) w) with
    | Ok (true, w2) => Ok (tt, set_out (λ b, b ++ Paragraph_close fl) w2)
    | Ok (false, w2) => Truncate (len (out w)) w2
    | Panic => Panic
    end.
Proof.
  unfold Paragraph, Paragraph_open, Paragraph_close. destruct w as [o buf d].
  erewrite bind_Ok; [|reflexivity].
  unfold mbind, M_bind, bind.
  destruct (Z.land fl LIST_TYPE_DEFINITION =? 0)%Z; run;
    same_callback_world;
    (destruct (text _) as [[[] w2]|]; [|done|done]);
    destruct w2; run; by rewrite ?app_nil_r.
Qed.

(** C5. A [List], and a [Paragraph], whose content callback returns
    [false] leaves the buffer as long as it was before the call: the
    opening tag is cut off again, no empty container stays.  ([Truncate]
    needs a callback that left at least the bytes that were there; when
    the callback only appended, the buffer is the one before the call.) *)
Theorem empty_block_rolled_back (fl start : Z) (w : World) :
  (∃ (w1 : World) (opening : list byte),
     out w1 = out w ++ opening
     ∧ ∀ (text : M bool) (w2 : World),
         text w1 = Ok (false, w2) →
         length (out w) ≤ length (out w2) →
         ∃ w3, List text fl start w = Ok (tt, w3)
               ∧ length (out w3) = length (out w)
               ∧ ∀ x, out w2 = out w1 ++ x → out w3 = out w)
  ∧ (∃ (w1 : World) (opening : list byte),
       out w1 = out w ++ opening
       ∧ ∀ (text : M bool) (w2 : World),
           text w1 = Ok (false, w2) →
           length (out w) ≤ length (out w2) →
           ∃ w3, Paragraph text fl w = Ok (tt, w3)
                 ∧ length (out w3) = length (out w)
                 ∧ ∀ x, out w2 = out w1 ++ x → out w3 = out w).
Proof.
  split.
  - exists (List_at_text fl start w),
           (List_open fl start (renderIAL (ial (opts w)))).
    split; [done|]. intros text w2 Htext Hlen.
    rewrite List_run, Htext. unfold len. rewrite Truncate_back by done.
    eexists. split; [done|]. simpl. split.
    + rewrite length_take. lia.
    + intros x ->. simpl. by rewrite <- app_assoc, take_app_length.
  - exists (set_out (λ b, b ++ Paragraph_open fl) w), (Paragraph_open fl).
    split; [done|]. intros text w2 Htext Hlen.
    rewrite Paragraph_run, Htext. unfold len. rewrite Truncate_back by done.
    eexists. split; [done|]. simpl. split.
    + rewrite length_take. lia.
    + intros x ->. simpl. by rewrite <- app_assoc, take_app_length.
Qed.

(** ** The attribute queue *)


(** ** Document matter *)

Lemma DocumentMatter_run (matter : Z) (w : World) :
  let n := Z.to_nat (sectionLevel (opts w)) in
  DocumentMatter matter w
  = Ok (tt, {| opts := with_docLevel matter
                         (with_sectionLevel
                            (decremented n (sectionLevel (opts w))) (opts w));
               out := out w ++ section_closes n ++ matter_markers matter;
               drains := drains w |}).
Proof.
  intros n. unfold DocumentMatter, matter_markers.
  erewrite bind_Ok; [|apply close_sections_run]. fold n.
  destruct (matter =? DOC_FRONT_MATTER)%Z; [|
    destruct (matter =? DOC_MAIN_MATTER)%Z; [|
      destruct (matter =? DOC_BACK_MATTER)%Z]];
    run; f_equal; f_equal; f_equal; rewrite ?app_nil_r; by norm_app.
Qed.

(** C3. From front matter, [DocumentMatter(out, DOC_BACK_MATTER)] does
    not write the close marker of the front container: whatever division
    the renderer is in, it writes the close marker of the middle
    container and then the open marker of the back container.  (The
    claim asks for [</front>] followed by [<back>], as [References]
    writes them, see [References_front_to_back].) *)
Theorem DocumentMatter_front_to_back (w : World) :
  docLevel (opts w) = DOC_FRONT_MATTER →
  ∃ w', DocumentMatter DOC_BACK_MATTER w = Ok (tt, w')
        ∧ out w' = out w
                   ++ section_closes (Z.to_nat (sectionLevel (opts w)))
                   ++ LF ++ bs "</middle>" ++ LF ++ bs "<back>" ++ LF
        ∧ docLevel (opts w') = DOC_BACK_MATTER.
Proof.
  intros _. rewrite DocumentMatter_run. eexists. split; [done|]. simpl.
  split; [|done]. unfold matter_markers.
  pose proof doc_front_back. pose proof doc_main_back.
  replace (DOC_BACK_MATTER =? DOC_FRONT_MATTER)%Z with false by lia.
  replace (DOC_BACK_MATTER =? DOC_MAIN_MATTER)%Z with false by lia.
  by rewrite Z.eqb_refl.
Qed.

(** C4. Asked for the division that is already current,
    [DocumentMatter] closes the open sections and brings [sectionLevel]
    back to zero, but for main and back matter it writes the markers of
    the transition again: it does not look at the current division.
    (For front matter, and in [References] when already in back matter,
    no marker is written, see [same_phase_without_markers].) *)
Theorem DocumentMatter_same_phase (w : World) :
  let n := Z.to_nat (sectionLevel (opts w)) in
  (docLevel (opts w) = DOC_MAIN_MATTER →
   ∃ w', DocumentMatter DOC_MAIN_MATTER w = Ok (tt, w')
         ∧ out w' = out w ++ section_closes n
                    ++ bs "</front>" ++ LF ++ LF ++ bs "<middle>" ++ LF
         ∧ ((0 ≤ sectionLevel (opts w) ≤ max_int)%Z →
            sectionLevel (opts w') = 0%Z))
  ∧ (docLevel (opts w) = DOC_BACK_MATTER →
     ∃ w', DocumentMatter DOC_BACK_MATTER w = Ok (tt, w')
           ∧ out w' = out w ++ section_closes n
                      ++ LF ++ bs "</middle>" ++ LF ++ bs "<back>" ++ LF
           ∧ ((0 ≤ sectionLevel (opts w) ≤ max_int)%Z →
              sectionLevel (opts w') = 0%Z)).
Proof.
  intros n. pose proof doc_front_main. pose proof doc_front_back.
  pose proof doc_main_back.
  split; intros _; rewrite DocumentMatter_run; (eexists; split; [done|]);
    simpl; (split; [|by apply close_sections_reset]); unfold matter_markers.
  - replace (DOC_MAIN_MATTER =? DOC_FRONT_MATTER)%Z with false by lia.
    by rewrite Z.eqb_refl.
  - replace (DOC_BACK_MATTER =? DOC_FRONT_MATTER)%Z with false by lia.
    replace (DOC_BACK_MATTER =? DOC_MAIN_MATTER)%Z with false by lia.
    by rewrite Z.eqb_refl.
Qed.

(** ** References *)

Lemma byte_eqb_decide (a b : byte) : Byte.eqb a b = bool_decide (a = b).
Proof.
  destruct (decide (a = b)) as [->|Hne].
  - rewrite bool_decide_eq_true_2 by done. by apply Byte.byte_dec_lb.
  - rewrite bool_decide_eq_false_2 by done.
    destruct (Byte.eqb a b) eqn:E; [|done].
    by apply Byte.byte_dec_bl in E.
Qed.

Lemma for_range_includes (ty : byte) (r : list (string * citation)) (w : World) :
  for_range r (λ kc, if Byte.eqb (typ kc.2) ty then include_line kc.2
                     else mret tt) w
  = Ok (tt, set_out (λ b, b ++ mjoin (map (λ kc, reference_entry kc.2)
                                        (filter (of_type ty) r))) w).
Proof.
  revert w. induction r as [|kc r IH]; intros w.
  - destruct w. run. by rewrite app_nil_r.
  - simpl for_range. rewrite byte_eqb_decide.
    destruct (decide (typ kc.2 = ty)) as [Hty|Hty].
    + rewrite bool_decide_eq_true_2, filter_cons_True by done.
      erewrite bind_Ok; [|reflexivity]. rewrite IH.
      destruct w. unfold reference_entry. run.
      f_equal. f_equal. f_equal. by norm_app.
    + rewrite bool_decide_eq_false_2, filter_cons_False by done.
      erewrite bind_Ok; [|reflexivity]. apply IH.
Qed.

(** The counters of [References] count the citations of each type, as
    long as the counts fit an [int]. *)
Lemma count_refs_from (r : list (string * citation)) (refi refn : Z) :
  (0 ≤ refi)%Z → (0 ≤ refn)%Z →
  (refi + Z.of_nat (length r) ≤ max_int)%Z →
  (refn + Z.of_nat (length r) ≤ max_int)%Z →
  foldl (λ '(refi, refn) kc,
           let refi := if Byte.eqb (typ kc.2) "i" then int_add refi 1
                       else refi in
           let refn := if Byte.eqb (typ kc.2) "n" then int_add refn 1
                       else refn in
           (refi, refn))
        (refi, refn) r
  = ((refi + Z.of_nat (length (filter (of_type "i") r)))%Z,
     (refn + Z.of_nat (length (filter (of_type "n") r)))%Z).
Proof.
  revert refi refn. induction r as [|kc r IH]; intros refi refn Hi Hn Hmi Hmn.
  - simpl. f_equal; lia.
  - simpl foldl. simpl length in Hmi, Hmn. rewrite !byte_eqb_decide.
    destruct (decide (typ kc.2 = "i"%byte)) as [Hti|Hti];
      destruct (decide (typ kc.2 = "n"%byte)) as [Htn|Htn];
      rewrite ?(bool_decide_eq_true_2 _ Hti), ?(bool_decide_eq_true_2 _ Htn),
        ?(bool_decide_eq_false_2 _ Hti), ?(bool_decide_eq_false_2 _ Htn);
      rewrite ?int_add_1 by lia; rewrite IH by lia;
      rewrite ?(filter_cons_True (of_type "i")) by done;
      rewrite ?(filter_cons_False (of_type "i")) by done;
      rewrite ?(filter_cons_True (of_type "n")) by done;
      rewrite ?(filter_cons_False (of_type "n")) by done;
      simpl length; f_equal; lia.
Qed.

Lemma count_refs_filter (r : list (string * citation)) :
  (Z.of_nat (length r) ≤ max_int)%Z →
  count_refs r = (Z.of_nat (length (filter (of_type "i") r)),
                  Z.of_nat (length (filter (of_type "n") r))).
Proof.
  intros Hr. unfold count_refs. by rewrite count_refs_from by lia.
Qed.

Lemma filter_types_length (r : list (string * citation)) :
  length (filter (of_type "i") r) + length (filter (of_type "n") r)
  ≤ length r.
Proof.
  induction r as [|kc r IH]; [done|].
  destruct (decide (of_type "i" kc)) as [Hi|Hi];
    destruct (decide (of_type "n" kc)) as [Hn|Hn].
  - unfold of_type in *. congruence.
  - rewrite filter_cons_True, (filter_cons_False (of_type "n")) by done.
    simpl. lia.
  - rewrite filter_cons_False, (filter_cons_True (of_type "n")) by done.
    simpl. lia.
  - rewrite filter_cons_False, (filter_cons_False (of_type "n")) by done.
    simpl. lia.
Qed.

Lemma References_in_order_run (r1 r2 r3 : list (string * citation)) (w : World) :
  let n := Z.to_nat (sectionLevel (opts w)) in
  standalone_off (flags (opts w)) = false →
  r1 ≡ₚ r2 → r1 ≡ₚ r3 →
  (Z.of_nat (length r1) ≤ max_int)%Z →
  References_in_order r1 r2 r3 w
  = Ok (tt, {| opts := with_docLevel DOC_BACK_MATTER
                         (with_sectionLevel
                            (decremented n (sectionLevel (opts w))) (opts w));
               out := out w ++ section_closes n
                      ++ back_markers (docLevel (opts w))
                      ++ reference_section (bs "Informative References")
                           (filter (of_type "i") r2)
                      ++ reference_section (bs "Normative References")
                           (filter (of_type "n") r3);
               drains := drains w |}).
Proof.
  intros n Hon H12 H13 Hlen. unfold References_in_order.
  erewrite bind_Ok; [|reflexivity]. rewrite Hon.
  erewrite bind_Ok; [|apply close_sections_run]. fold n.
  erewrite bind_Ok; [|reflexivity]. simpl docLevel.
  set (w0 := {| opts := with_sectionLevel
                          (decremented n (sectionLevel (opts w))) (opts w);
                out := out w ++ section_closes n;
                drains := drains w |}).
  set (w1 := {| opts := with_docLevel DOC_BACK_MATTER (opts w0);
                out := out w ++ section_closes n
                       ++ back_markers (docLevel (opts w));
                drains := drains w |}).
  assert (Hmark :
    (if (docLevel (opts w) =? DOC_FRONT_MATTER)%Z
     then WriteString (bs "</front>" ++ LF) ;; WriteString (bs "<back>" ++ LF)
     else if (docLevel (opts w) =? DOC_MAIN_MATTER)%Z
     then WriteString (bs "</middle>" ++ LF) ;; WriteString (bs "<back>" ++ LF)
     else if (docLevel (opts w) =? DOC_BACK_MATTER)%Z then mret tt
     else mret tt) w0
    = Ok (tt, set_out (λ b, b ++ back_markers (docLevel (opts w))) w0)).
  { unfold w0, back_markers.
    destruct (docLevel (opts w) =? DOC_FRONT_MATTER)%Z; [|
      destruct (docLevel (opts w) =? DOC_MAIN_MATTER)%Z; [|
        destruct (docLevel (opts w) =? DOC_BACK_MATTER)%Z]];
      run; f_equal; f_equal; f_equal; rewrite ?app_nil_r; by norm_app. }
  erewrite bind_Ok; [|exact Hmark].
  erewrite bind_Ok; [|reflexivity].
  replace (set_opts (with_docLevel DOC_BACK_MATTER)
             (set_out (λ b, b ++ back_markers (docLevel (opts w))) w0))
    with w1 by (unfold w1, w0, set_opts, set_out; simpl; f_equal;
                by rewrite <- app_assoc).
  pose proof (filter_types_length r1) as Hsum.
  destruct (count_refs r1) as [refi refn] eqn:Hcount.
  rewrite count_refs_filter in Hcount by done.
  rewrite (filter_Permutation (of_type "i") _ _ H12) in Hcount, Hsum.
  rewrite (filter_Permutation (of_type "n") _ _ H13) in Hcount, Hsum.
  injection Hcount as <- <-.
  unfold int_add. rewrite wrap_int
    by (unfold is_int, min_int, max_int in *; lia).
  destruct (filter (of_type "i") r2) as [|ci fi] eqn:Efi;
    destruct (filter (of_type "n") r3) as [|cn fn] eqn:Efn.
  - decide_counts. unfold w1. simpl. run. f_equal. f_equal. f_equal.
    rewrite ?app_nil_r. by norm_app.
  - decide_counts.
    erewrite bind_Ok; [|reflexivity].
    erewrite bind_Ok; [|reflexivity].
    erewrite bind_Ok; [|apply for_range_includes]. rewrite Efn.
    unfold w1, reference_section. run. f_equal. f_equal. f_equal.
    by norm_app.
  - decide_counts.
    erewrite bind_Ok; [reflexivity|].
    erewrite bind_Ok; [|reflexivity].
    erewrite bind_Ok; [|apply for_range_includes]. rewrite Efi.
    unfold w1, reference_section. run. f_equal. f_equal. f_equal.
    rewrite ?app_nil_r. by norm_app.
  - decide_counts.
    erewrite bind_Ok.
    2: { erewrite bind_Ok; [|reflexivity].
         erewrite bind_Ok; [|apply for_range_includes]. reflexivity. }
    erewrite bind_Ok; [|reflexivity].
    erewrite bind_Ok; [|apply for_range_includes]. rewrite Efi, Efn.
    unfold w1, reference_section. run. f_equal. f_equal. f_equal.
    by norm_app.
Qed.

Lemma standalone_on (fl : Z) :
  Z.land fl XML_STANDALONE ≠ 0%Z → standalone_off fl = false.
Proof. unfold standalone_off. intros Hon. by apply Z.eqb_neq. Qed.

(** With every citation informative or normative, the two groups
    together are the citations. *)
Lemma two_types_partition (r : list (string * citation)) :
  Forall (λ kc, typ kc.2 = "i"%byte ∨ typ kc.2 = "n"%byte) r →
  filter (of_type "i") r ++ filter (of_type "n") r ≡ₚ r.
Proof.
  intros Hall. rewrite <- (filter_app_complement (of_type "i") r) at 3.
  f_equiv. induction Hall as [|kc r Hkc _ IH]; [done|].
  destruct (decide (of_type "i" kc)) as [Hi|Hi].
  - rewrite (filter_cons_False (of_type "n"))
      by (unfold of_type in *; rewrite Hi; discriminate).
    rewrite (filter_cons_False (λ x, ¬ of_type "i" x)) by naive_solver.
    exact IH.
  - rewrite (filter_cons_True (of_type "n"))
      by (unfold of_type in *; tauto).
    rewrite (filter_cons_True (λ x, ¬ of_type "i" x)) by done.
    by constructor.
Qed.

(** The path the claim C3 describes, as [References] takes it: from
    front matter it closes the front container and opens the back one. *)
Lemma References_front_to_back (citations : gmap string citation)
    (w : World) (r : result (unit * World)) :
  Z.land (flags (opts w)) XML_STANDALONE ≠ 0%Z →
  docLevel (opts w) = DOC_FRONT_MATTER →
  (Z.of_nat (size citations) ≤ max_int)%Z →
  References citations w r →
  ∃ w' sections,
    r = Ok (tt, w')
    ∧ out w' = out w ++ section_closes (Z.to_nat (sectionLevel (opts w)))
               ++ bs "</front>" ++ LF ++ bs "<back>" ++ LF ++ sections
    ∧ docLevel (opts w') = DOC_BACK_MATTER.
Proof.
  intros Hon Hfront Hsize (r1 & r2 & r3 & H1 & H2 & H3 & <-).
  rewrite References_in_order_run.
  - eexists _, _. split; [done|]. simpl. split; [|done].
    unfold back_markers. rewrite Hfront, Z.eqb_refl.
    by rewrite <- !app_assoc.
  - by apply standalone_on.
  - by rewrite H1, H2.
  - by rewrite H1, H3.
  - by rewrite H1, length_map_to_list.
Qed.

(** The cases in which the claim C4 holds: [DocumentMatter] asked for
    front matter, and [References] called in back matter, close the
    sections and write no division marker. *)
Lemma same_phase_without_markers (w : World) :
  let n := Z.to_nat (sectionLevel (opts w)) in
  (∃ w', DocumentMatter DOC_FRONT_MATTER w = Ok (tt, w')
         ∧ out w' = out w ++ section_closes n)
  ∧ (Z.land (flags (opts w)) XML_STANDALONE ≠ 0%Z →
     docLevel (opts w) = DOC_BACK_MATTER →
     ∃ w', References_in_order [] [] [] w = Ok (tt, w')
           ∧ out w' = out w ++ section_closes n).
Proof.
  intros n. split.
  - rewrite DocumentMatter_run. eexists. split; [done|]. simpl.
    unfold matter_markers. by rewrite Z.eqb_refl, app_nil_r.
  - intros Hon Hback. rewrite References_in_order_run;
      [|by apply standalone_on|done|done|done].
    eexists. split; [done|]. simpl. unfold back_markers. rewrite Hback.
    pose proof doc_front_back. pose proof doc_main_back.
    replace (DOC_BACK_MATTER =? DOC_FRONT_MATTER)%Z with false by lia.
    replace (DOC_BACK_MATTER =? DOC_MAIN_MATTER)%Z with false by lia.
    by rewrite !app_nil_r.
Qed.

(** C6, as the code has it.  With the standalone flag set and every
    recorded citation of type ['i'] or ['n'] (and no more citations than
    an [int] counts), every run of [References] splits the citations
    into the informative and the normative ones, each recorded target in
    exactly one group; after the section close markers and the markers
    that open back matter it writes one titled reference section per
    group that is not empty, with one inclusion line per citation of the
    group, naming the file of the citation or, when that is empty, the
    name [referenceFile] derives; with no citation it writes no
    reference section. *)
Theorem References_groups (citations : gmap string citation) (w : World)
    (r : result (unit * World)) :
  Z.land (flags (opts w)) XML_STANDALONE ≠ 0%Z →
  map_Forall (λ _ c, typ c = "i"%byte ∨ typ c = "n"%byte) citations →
  (Z.of_nat (size citations) ≤ max_int)%Z →
  References citations w r →
  ∃ w' informative normative,
    r = Ok (tt, w')
    ∧ Forall (λ kc, typ kc.2 = "i"%byte) informative
    ∧ Forall (λ kc, typ kc.2 = "n"%byte) normative
    ∧ informative ++ normative ≡ₚ map_to_list citations
    ∧ list_to_set (informative ++ normative).*1 = dom citations
    ∧ out w' = out w ++ section_closes (Z.to_nat (sectionLevel (opts w)))
               ++ back_markers (docLevel (opts w))
               ++ reference_section (bs "Informative References") informative
               ++ reference_section (bs "Normative References") normative
    ∧ (citations = ∅ → informative = [] ∧ normative = []).
Proof.
  intros Hon Htyp Hsize (r1 & r2 & r3 & H1 & H2 & H3 & <-).
  assert (Hperm : filter (of_type "i") r2 ++ filter (of_type "n") r3
                  ≡ₚ map_to_list citations).
  { rewrite H2, H3. apply two_types_partition.
    apply Forall_forall. intros [k c] Hkc%elem_of_map_to_list.
    exact (Htyp k c Hkc). }
  exists {| opts := with_docLevel DOC_BACK_MATTER
                      (with_sectionLevel
                         (decremented (Z.to_nat (sectionLevel (opts w)))
                            (sectionLevel (opts w))) (opts w));
            out := out w ++ section_closes (Z.to_nat (sectionLevel (opts w)))
                   ++ back_markers (docLevel (opts w))
                   ++ reference_section (bs "Informative References")
                        (filter (of_type "i") r2)
                   ++ reference_section (bs "Normative References")
                        (filter (of_type "n") r3);
            drains := drains w |},
         (filter (of_type "i") r2), (filter (of_type "n") r3).
  split; [|split; [|split; [|split; [|split; [|split]]]]].
  - apply References_in_order_run.
    + by apply standalone_on.
    + by rewrite H1, H2.
    + by rewrite H1, H3.
    + by rewrite H1, length_map_to_list.
  - apply Forall_forall. by intros kc [Hkc _]%list_elem_of_filter.
  - apply Forall_forall. by intros kc [Hkc _]%list_elem_of_filter.
  - exact Hperm.
  - apply leibniz_equiv. rewrite Hperm. symmetry. apply dom_alt.
  - done.
  - intros ->. rewrite map_to_list_empty in Hperm.
    apply Permutation_nil_r in Hperm. by apply app_eq_nil in Hperm.
Qed.

(** ** The standalone flag *)

Lemma References_runs (citations : gmap string citation) (w : World) :
  References citations w
    (References_in_order (map_to_list citations) (map_to_list citations)
       (map_to_list citations) w).
Proof. by exists (map_to_list citations), (map_to_list citations),
                 (map_to_list citations). Qed.

(** C7. With the standalone flag off, [DocumentHeader], [DocumentFooter],
    [TitleBlockTOML] and [References] write nothing: each returns with the
    buffer, and the renderer, as they were. *)
Theorem not_standalone_no_wrapper (w : World) (first : bool)
    (block : option title) (citations : gmap string citation) :
  (Z.land (flags (opts w)) XML_STANDALONE = 0)%Z →
  DocumentHeader first w = Ok (tt, w)
  ∧ DocumentFooter first w = Ok (tt, w)
  ∧ TitleBlockTOML block w = Ok (tt, w)
  ∧ References citations w (Ok (tt, w))
  ∧ ∀ r, References citations w r → r = Ok (tt, w).
Proof.
  intros Hoff.
  assert (Hb : standalone_off (flags (opts w)) = true).
  { unfold standalone_off. by rewrite Hoff. }
  assert (Hrefs : ∀ r1 r2 r3, References_in_order r1 r2 r3 w = Ok (tt, w)).
  { intros r1 r2 r3. unfold References_in_order.
    erewrite bind_Ok; [|reflexivity]. by rewrite Hb. }
  repeat split.
  - unfold DocumentHeader. erewrite bind_Ok; [|reflexivity].
    by rewrite Hb, orb_true_r.
  - unfold DocumentFooter. erewrite bind_Ok; [|reflexivity].
    by rewrite Hb, orb_true_r.
  - unfold TitleBlockTOML. erewrite bind_Ok; [|reflexivity]. by rewrite Hb.
  - rewrite <- (Hrefs (map_to_list citations) (map_to_list citations)
                  (map_to_list citations)).
    apply References_runs.
  - intros r (r1 & r2 & r3 & _ & _ & _ & <-). apply Hrefs.
Qed.

(** ** Comments *)

Lemma slice_to_ok (s : list byte) (n : nat) :
  n ≤ length s → slice_to s (Z.of_nat n) = Ok (take n s).
Proof.
  intros Hn. unfold slice_to, len.
  replace (Z.of_nat n <? 0)%Z with false by lia.
  replace (Z.of_nat (length s) <? Z.of_nat n)%Z with false by lia.
  simpl. by rewrite Nat2Z.id.
Qed.

Lemma slice_from_ok (s : list byte) (n : nat) :
  n ≤ length s → slice_from s (Z.of_nat n) = Ok (drop n s).
Proof.
  intros Hn. unfold slice_from, len.
  replace (Z.of_nat n <? 0)%Z with false by lia.
  replace (Z.of_nat (length s) <? Z.of_nat n)%Z with false by lia.
  simpl. by rewrite Nat2Z.id.
Qed.

Lemma slice_from_short (s : list byte) (n : nat) :
  length s < n → slice_from s (Z.of_nat n) = Panic.
Proof.
  intros Hn. unfold slice_from, len.
  replace (Z.of_nat (length s) <? Z.of_nat n)%Z with true by lia.
  by rewrite orb_true_r.
Qed.

Lemma at_index_ok (s : list byte) (n : nat) (c : byte) :
  s !! n = Some c → at_index s (Z.of_nat n) = Ok c.
Proof.
  intros Hc. unfold at_index.
  destruct (Z.ltb_spec (Z.of_nat n) 0); [lia|].
  by rewrite Nat2Z.id, Hc.
Qed.

Lemma Index_from_range (s sep : list byte) (i : Z) :
  Index_from i s sep = (-1)%Z
  ∨ (i ≤ Index_from i s sep ≤ i + Z.of_nat (length s))%Z.
Proof.
  revert i. induction s as [|b s IH]; intros i; simpl.
  - destruct (has_prefix sep []); [right; lia|by left].
  - destruct (has_prefix sep (b :: s)); [right; lia|].
    destruct (IH (i + 1)%Z) as [->|Hr]; [by left|right; lia].
Qed.

Lemma truncation_run (text : list byte) :
  (if (0 <? Index text (bs "-->"))%Z
   then slice_to text (Index text (bs "-->")) else Ok text)
  = Ok (before_terminator text).
Proof.
  unfold before_terminator. simpl.
  destruct (Z.ltb_spec 0 (Index text (bs "-->"))) as [Hpos|Hneg]; [|done].
  destruct (Index_from_range text (bs "-->") 0) as [Hr|Hr];
    fold (Index text (bs "-->")) in Hr; [lia|].
  rewrite <- (Z2Nat.id (Index text (bs "-->"))) at 1 by lia.
  apply slice_to_ok. lia.
Qed.

Lemma find_colon_run (text : list byte) (n i : nat) :
  i + n ≤ length text →
  (Z.of_nat (i + n) ≤ max_int)%Z →
  find_colon n (Z.of_nat i) text
  = Ok ((λ p, Z.of_nat (i + p.1))
          <$> list_find (λ b, b = ":"%byte) (take n (drop i text))).
Proof.
  revert i. induction n as [|n IH]; intros i Hlen Hmax; [done|].
  destruct (lookup_lt_is_Some_2 text i) as [c Hc]; [lia|].
  simpl find_colon. rewrite (at_index_ok _ _ _ Hc).
  rewrite (drop_S _ _ _ Hc). simpl.
  rewrite byte_eqb_decide.
  destruct (decide (c = ":"%byte)) as [->|Hne].
  - rewrite bool_decide_eq_true_2 by done. simpl. do 3 f_equal. lia.
  - rewrite bool_decide_eq_false_2 by done.
    rewrite int_add_1 by lia.
    replace (Z.of_nat i + 1)%Z with (Z.of_nat (S i)) by lia.
    rewrite IH by lia. f_equal.
    destruct (list_find _ _) as [[j x]|]; simpl; [|done].
    do 2 f_equal. lia.
Qed.

Lemma window_colon_run (payload : list byte) :
  let l := len payload in
  let l := if (20 <? l)%Z then 20%Z else l in
  find_colon (Z.to_nat l) 0 payload = Ok (Z.of_nat <$> colon_index payload).
Proof.
  simpl. unfold len, colon_index.
  set (l := if (20 <? _)%Z then _ else _).
  assert (Hl : Z.to_nat l = min 20 (length payload)).
  { unfold l. destruct (Z.ltb_spec 20 (Z.of_nat (length payload))); lia. }
  rewrite Hl. rewrite (find_colon_run payload _ 0);
    [|lia|unfold max_int; lia].
  rewrite drop_0. f_equal.
  replace (take (20 `min` length payload) payload) with (take 20 payload).
  - by destruct (list_find _ _) as [[j x]|].
  - destruct (Nat.min_spec 20 (length payload)) as [[_ ->]|[Hle ->]]; [done|].
    by rewrite !take_ge by lia.
Qed.

Lemma colon_index_lt (payload : list byte) (j : nat) :
  colon_index payload = Some j → j < length payload ∧ j < 20.
Proof.
  unfold colon_index. destruct (list_find _ _) as [[j' c]|] eqn:Hfind; [|done].
  intros [= <-]. apply list_find_Some in Hfind as (Hj & _ & _).
  apply lookup_lt_Some in Hj. rewrite length_take in Hj. simpl. lia.
Qed.

Lemma CommentHtml_run (text : list byte) (w : World) :
  CommentHtml text w
  = match slice_from (before_terminator text) 4 with
    | Ok payload => Ok (tt, set_out (λ b, b ++ annotation payload) w)
    | Panic => Panic
    end.
Proof.
  unfold CommentHtml. cbv zeta. rewrite truncation_run.
  erewrite bind_Ok; [|reflexivity].
  destruct (slice_from (before_terminator text) 4) as [payload|];
    [|by apply bind_Panic].
  erewrite bind_Ok; [|reflexivity].
  pose proof (window_colon_run payload) as Hscan. cbv zeta in Hscan.
  rewrite Hscan. erewrite bind_Ok; [|reflexivity].
  unfold annotation.
  destruct (colon_index payload) as [j|] eqn:Hcolon; simpl.
  - apply colon_index_lt in Hcolon as [Hj H20].
    rewrite slice_to_ok by lia. simpl.
    rewrite int_add_1 by (unfold max_int; lia).
    replace (Z.of_nat j + 1)%Z with (Z.of_nat (S j)) by lia.
    rewrite slice_from_ok by lia. simpl.
    erewrite bind_Ok; [|reflexivity].
    unfold len. rewrite length_take_le by lia.
    destruct j as [|i].
    + simpl. destruct w. run. f_equal. f_equal. f_equal. by norm_app.
    + destruct (Z.eqb_spec (Z.of_nat (S i)) 0) as [|_]; [lia|].
      simpl negb. cbv iota.
      destruct payload as [|c payload]; [simpl in Hj; lia|].
      simpl take. change 0%Z with (Z.of_nat 0).
      rewrite (at_index_ok _ 0 c) by done. simpl.
      rewrite byte_eqb_decide.
      destruct (decide (c = " "%byte)) as [->|Hne].
      * rewrite bool_decide_eq_true_2 by done.
        change 1%Z with (Z.of_nat 1).
        rewrite slice_from_ok by (simpl; lia). simpl.
        destruct w. run. f_equal. f_equal. f_equal. by norm_app.
      * rewrite bool_decide_eq_false_2 by done.
        destruct w. run. f_equal. f_equal. f_equal. by norm_app.
  - erewrite bind_Ok; [|reflexivity]. simpl.
    destruct w. run. f_equal. f_equal. f_equal. by norm_app.
Qed.

(** C8, as the code has it.  The payload is the comment without its
    first four bytes and without what follows the terminator.  When the
    first colon among its first 20 bytes is not its first byte, the text
    before that colon, one leading space stripped, is written as the
    [source] attribute of the annotation and the text after the colon as
    its body.  When there is no colon among the first 20 bytes the whole
    payload is written as an annotation without [source].  A payload that
    starts with the colon gets no [source] attribute either: the text
    after the colon is written as the body. *)
Theorem CommentHtml_source (text payload : list byte) (w : World) :
  4 ≤ length (before_terminator text) →
  payload = drop 4 (before_terminator text) →
  ∃ w', CommentHtml text w = Ok (tt, w')
        ∧ opts w' = opts w
        ∧ match colon_index payload with
          | Some (S i) =>
              out w' = out w ++ bs "<t><cref source=" ++ DQ
                       ++ strip_space (take (S i) payload) ++ DQ ++ bs ">"
                       ++ drop (S (S i)) payload ++ bs "</cref></t>" ++ LF
          | Some 0 =>
              out w' = out w ++ bs "<t><cref>" ++ LF ++ drop 1 payload
                       ++ bs "</cref></t>" ++ LF
          | None =>
              out w' = out w ++ bs "<t><cref>" ++ LF ++ payload
                       ++ bs "</cref></t>" ++ LF
          end.
Proof.
  intros Hlen ->. rewrite CommentHtml_run.
  change 4%Z with (Z.of_nat 4). rewrite slice_from_ok by done.
  eexists. split; [done|]. split; [done|]. simpl. unfold annotation.
  by destruct (colon_index _) as [[|i]|].
Qed.

(** C10. [CommentHtml] cuts its input at the first terminator found at
    a positive index and then slices off four bytes, whatever they are:
    with at least four bytes left the call returns (no later index or
    slice is out of range), with fewer it panics.  An input that starts
    with the four bytes of the comment opener and has no terminator
    before index 4 is safe. *)
Theorem CommentHtml_bounds (text : list byte) (w : World) :
  (4 ≤ length (before_terminator text) →
   CommentHtml text w
   = Ok (tt, set_out (λ b, b ++ annotation (drop 4 (before_terminator text)))
               w))
  ∧ (length (before_terminator text) < 4 → CommentHtml text w = Panic)
  ∧ (∀ rest, text = bs "<!--" ++ rest →
       Index text (bs "-->") = (-1)%Z ∨ (4 ≤ Index text (bs "-->"))%Z →
       ∃ w', CommentHtml text w = Ok (tt, w')).
Proof.
  assert (Hok : 4 ≤ length (before_terminator text) →
    CommentHtml text w
    = Ok (tt, set_out (λ b, b ++ annotation (drop 4 (before_terminator text)))
                w)).
  { intros Hlen. rewrite CommentHtml_run.
    change 4%Z with (Z.of_nat 4). by rewrite slice_from_ok by done. }
  split; [done|]. split.
  - intros Hlen. rewrite CommentHtml_run.
    change 4%Z with (Z.of_nat 4). by rewrite slice_from_short by done.
  - intros rest Htext Hterm. eexists. apply Hok.
    unfold before_terminator. cbv zeta.
    destruct Hterm as [->|Hge].
    + simpl. rewrite Htext, length_app. simpl. lia.
    + destruct (Z.ltb_spec 0 (Index text (bs "-->"))) as [_|?]; [|lia].
      destruct (Index_from_range text (bs "-->") 0) as [Hr|Hr];
        fold (Index text (bs "-->")) in Hr; [lia|].
      rewrite length_take_le by lia. lia.
Qed.

End Properties.

(** * Further properties of the renderer *)

Section Further.
Context `{!Externals}.

(** ** The attribute queue across calls *)

(** X1. The queue of attribute lists is first in, first out, and emptied
    by a drain: after two [SetIAL] calls, [GetAndResetIAL] returns what
    was pending followed by the two arguments in the order of the calls,
    and a second [GetAndResetIAL] returns nothing.  The buffer is not
    touched. *)
Theorem ial_queue_round_trip (i1 i2 : list IAL) (w : World) :
  ∃ w', (SetIAL i1 ;; SetIAL i2 ;;
         a ← GetAndResetIAL; b ← GetAndResetIAL; mret (a, b)) w
        = Ok ((ial (opts w) ++ i1 ++ i2, []), w')
        ∧ ial (opts w') = []
        ∧ out w' = out w
        ∧ sectionLevel (opts w') = sectionLevel (opts w)
        ∧ docLevel (opts w') = docLevel (opts w).
Proof.
  eexists. split.
  - unfold SetIAL. run. rewrite <- app_assoc. reflexivity.
  - done.
Qed.

Lemma Paragraph_writes_only (text : M bool) (fl : Z) (w : World) :
  writes_only text →
  ∃ written, Paragraph text fl w = Ok (tt, set_out (λ o, o ++ written) w).
Proof.
  intros Htext. rewrite Paragraph_run.
  destruct (Htext (set_out (λ b, b ++ Paragraph_open fl) w)) as (b & x & ->).
  destruct b.
  - exists (Paragraph_open fl ++ x ++ Paragraph_close fl).
    destruct w. unfold set_out. simpl. by rewrite <- !app_assoc.
  - exists []. unfold len. rewrite Truncate_back.
    + destruct w. unfold set_out. simpl.
      by rewrite <- app_assoc, take_app_length, app_nil_r.
    + simpl. rewrite !length_app. lia.
Qed.

(** X2. Attributes queued before a [Paragraph] are not consumed by it:
    with a content callback that only writes, they end up in the tag of
    the next block that drains the queue, here a [Table].  A
    [BlockQuote] in between consumes them: the table's tag then carries
    the rendering of the empty queue. *)
Theorem attributes_wait_for_next_drain (i : list IAL) (text : M bool)
    (fl : Z) (quote header body caption : list byte) (columnData : list Z)
    (w : World) :
  writes_only text →
  (∃ w' written,
     (SetIAL i ;; Paragraph text fl ;; Table header body columnData caption) w
     = Ok (tt, w')
     ∧ out w' = out w ++ written ++ bs "<texttable"
                ++ renderIAL (ial (opts w) ++ i) ++ bs ">" ++ LF
                ++ header ++ body ++ bs "</texttable>" ++ LF
     ∧ ial (opts w') = [])
  ∧ (∃ w' written,
       (SetIAL i ;; BlockQuote quote ;;
        Table header body columnData caption) w
       = Ok (tt, w')
       ∧ out w' = out w ++ written ++ bs "<texttable"
                  ++ renderIAL [] ++ bs ">" ++ LF
                  ++ header ++ body ++ bs "</texttable>" ++ LF
       ∧ ial (opts w') = []).
Proof.
  intros Htext. split.
  - erewrite bind_Ok; [|reflexivity].
    destruct (Paragraph_writes_only text fl
                (set_opts (λ o, with_ial (ial o ++ i) o) w) Htext)
      as (written & Hpar).
    erewrite bind_Ok; [|exact Hpar]. unfold Table. run.
    eexists _, written. split; [reflexivity|]. simpl.
    split; [|done]. by norm_app.
  - unfold SetIAL, BlockQuote, Table. run.
    eexists _, (bs "<t><list style=" ++ DQ ++ bs "empty" ++ DQ ++ bs ">" ++ LF
                ++ quote ++ bs "</list></t>" ++ LF).
    split; [reflexivity|]. simpl. split; [|done]. by norm_app.
Qed.

(** X3. A [List] that is rolled back has still consumed the pending
    attributes: with a callback that reports no content, the buffer is
    the one before the call and the queue is empty, so the attributes
    are lost.  A [Paragraph] that is rolled back leaves both as they
    were. *)
Theorem rolled_back_List_consumes_attributes (text : M bool)
    (fl start : Z) (w : World) :
  writes_nothing_kept text →
  List text fl start w
  = Ok (tt, {| opts := with_ial [] (opts w); out := out w;
               drains := S (drains w) |})
  ∧ Paragraph text fl w = Ok (tt, w).
Proof.
  intros Htext. split.
  - rewrite List_run.
    destruct (Htext (List_at_text fl start w)) as (x & ->).
    unfold len. rewrite Truncate_back.
    + unfold set_out, List_at_text. simpl.
      by rewrite <- app_assoc, take_app_length.
    + simpl. rewrite !length_app. lia.
  - rewrite Paragraph_run.
    destruct (Htext (set_out (λ b, b ++ Paragraph_open fl) w)) as (x & ->).
    unfold len. rewrite Truncate_back.
    + destruct w. unfold set_out. simpl.
      by rewrite <- app_assoc, take_app_length.
    + simpl. rewrite !length_app. lia.
Qed.

(** ** Divisions and the end of the document *)

Lemma decremented_min (sl : Z) :
  (sl ≤ max_int)%Z → decremented (Z.to_nat sl) sl = Z.min sl 0.
Proof.
  intros Hmax. destruct (Z.le_gt_cases sl 0) as [Hle|Hgt].
  - replace (Z.to_nat sl) with 0 by lia. simpl. lia.
  - rewrite close_sections_reset by lia. lia.
Qed.

Lemma DocumentFooter_run (w : World) :
  let n := Z.to_nat (sectionLevel (opts w)) in
  standalone_off (flags (opts w)) = false →
  DocumentFooter true w
  = Ok (tt, {| opts := with_sectionLevel
                         (decremented n (sectionLevel (opts w))) (opts w);
               out := out w ++ section_closes n
                      ++ footer_markers (docLevel (opts w))
                      ++ bs "</rfc>" ++ LF;
               drains := drains w |}).
Proof.
  intros n Hon. unfold DocumentFooter, footer_markers.
  erewrite bind_Ok; [|reflexivity]. rewrite Hon. cbn [negb orb].
  erewrite bind_Ok; [|apply close_sections_run]. fold n.
  erewrite bind_Ok; [|reflexivity]. simpl docLevel.
  destruct (docLevel (opts w) =? DOC_FRONT_MATTER)%Z; [|
    destruct (docLevel (opts w) =? DOC_MAIN_MATTER)%Z; [|
      destruct (docLevel (opts w) =? DOC_BACK_MATTER)%Z]];
    run; f_equal; f_equal; f_equal; rewrite ?app_nil_r; by norm_app.
Qed.

Lemma matter_markers_main :
  matter_markers DOC_MAIN_MATTER
  = bs "</front>" ++ LF ++ LF ++ bs "<middle>" ++ LF.
Proof.
  unfold matter_markers. pose proof doc_front_main.
  replace (DOC_MAIN_MATTER =? DOC_FRONT_MATTER)%Z with false by lia.
  by rewrite Z.eqb_refl.
Qed.

Lemma matter_markers_back :
  matter_markers DOC_BACK_MATTER
  = LF ++ bs "</middle>" ++ LF ++ bs "<back>" ++ LF.
Proof.
  unfold matter_markers. pose proof doc_front_back. pose proof doc_main_back.
  replace (DOC_BACK_MATTER =? DOC_FRONT_MATTER)%Z with false by lia.
  replace (DOC_BACK_MATTER =? DOC_MAIN_MATTER)%Z with false by lia.
  by rewrite Z.eqb_refl.
Qed.

Lemma footer_markers_back :
  footer_markers DOC_BACK_MATTER = LF ++ bs "</back>" ++ LF.
Proof.
  unfold footer_markers. pose proof doc_front_back. pose proof doc_main_back.
  replace (DOC_BACK_MATTER =? DOC_FRONT_MATTER)%Z with false by lia.
  replace (DOC_BACK_MATTER =? DOC_MAIN_MATTER)%Z with false by lia.
  by rewrite Z.eqb_refl.
Qed.

Lemma DocumentMatter_flushes (matter : Z) (w : World) :
  (sectionLevel (opts w) ≤ max_int)%Z →
  DocumentMatter matter w
  = Ok (tt, {| opts := with_docLevel matter
                         (with_sectionLevel (Z.min (sectionLevel (opts w)) 0)
                            (opts w));
               out := out w
                      ++ section_closes (Z.to_nat (sectionLevel (opts w)))
                      ++ matter_markers matter;
               drains := drains w |}).
Proof. intros Hmax. by rewrite DocumentMatter_run, decremented_min. Qed.

Lemma DocumentFooter_flushes (w : World) :
  standalone_off (flags (opts w)) = false →
  (sectionLevel (opts w) ≤ max_int)%Z →
  DocumentFooter true w
  = Ok (tt, {| opts := with_sectionLevel (Z.min (sectionLevel (opts w)) 0)
                         (opts w);
               out := out w
                      ++ section_closes (Z.to_nat (sectionLevel (opts w)))
                      ++ footer_markers (docLevel (opts w))
                      ++ bs "</rfc>" ++ LF;
               drains := drains w |}).
Proof. intros Hon Hmax. by rewrite DocumentFooter_run, decremented_min. Qed.

Lemma flushed_level (sl : Z) :
  Z.to_nat (Z.min sl 0) = 0 ∧ Z.min (Z.min sl 0) 0 = Z.min sl 0
  ∧ (Z.min sl 0 ≤ max_int)%Z.
Proof. unfold max_int. lia. Qed.

(** X4. Called in the order of a document, main matter, back matter
    and the footer, [DocumentMatter] and [DocumentFooter] write
    division markers that pair up: the front container is closed and
    the middle one opened, the middle one closed and the back one
    opened, the back one and the document closed.  The sections open
    at the first call are closed once, before the first marker. *)
Theorem divisions_in_document_order (w : World) :
  Z.land (flags (opts w)) XML_STANDALONE ≠ 0%Z →
  (sectionLevel (opts w) ≤ max_int)%Z →
  ∃ w', (DocumentMatter DOC_MAIN_MATTER ;; DocumentMatter DOC_BACK_MATTER ;;
         DocumentFooter true) w = Ok (tt, w')
        ∧ out w' = out w ++ section_closes (Z.to_nat (sectionLevel (opts w)))
                   ++ (bs "</front>" ++ LF ++ LF ++ bs "<middle>" ++ LF)
                   ++ (LF ++ bs "</middle>" ++ LF ++ bs "<back>" ++ LF)
                   ++ (LF ++ bs "</back>" ++ LF ++ bs "</rfc>" ++ LF)
        ∧ docLevel (opts w') = DOC_BACK_MATTER
        ∧ sectionLevel (opts w') = Z.min (sectionLevel (opts w)) 0.
Proof.
  intros Hon Hmax.
  destruct (flushed_level (sectionLevel (opts w))) as (Hnone & Hmin & Hle).
  erewrite bind_Ok; [|by apply DocumentMatter_flushes].
  erewrite bind_Ok; [|by apply DocumentMatter_flushes].
  rewrite DocumentFooter_flushes; [|by apply standalone_on|simpl; lia].
  simpl. rewrite !Hnone, !Hmin.
  rewrite matter_markers_main, matter_markers_back, footer_markers_back.
  eexists. split; [reflexivity|]. simpl. rewrite ?Hnone, ?Hmin.
  split; [|done].
  unfold section_closes at 2 3. simpl. by rewrite <- !app_assoc.
Qed.

(** X5. Closing the open sections is idempotent: right after any
    [DocumentMatter] call, a [DocumentMatter] call for front matter
    writes nothing and leaves the section level as it is. *)
Theorem flush_is_idempotent (matter : Z) (w : World) :
  (sectionLevel (opts w) ≤ max_int)%Z →
  ∃ w1 w2, DocumentMatter matter w = Ok (tt, w1)
           ∧ DocumentMatter DOC_FRONT_MATTER w1 = Ok (tt, w2)
           ∧ out w2 = out w1
           ∧ sectionLevel (opts w2) = sectionLevel (opts w1)
           ∧ docLevel (opts w2) = DOC_FRONT_MATTER.
Proof.
  intros Hmax.
  destruct (flushed_level (sectionLevel (opts w))) as (Hnone & Hmin & Hle).
  eexists _, _.
  split; [by apply DocumentMatter_flushes|].
  split; [by apply DocumentMatter_flushes|]. simpl.
  rewrite ?Hnone, ?Hmin. unfold matter_markers at 2. rewrite Z.eqb_refl.
  unfold section_closes at 2. simpl. by rewrite !app_nil_r.
Qed.

(** X6. [References] followed by [DocumentFooter] ends the document in
    back matter whatever division the renderer was in: after the
    markers that lead to back matter and the reference sections, the
    footer closes the back container and the document, and writes no
    further section close marker. *)
Theorem References_then_footer (r1 r2 r3 : list (string * citation))
    (w : World) :
  Z.land (flags (opts w)) XML_STANDALONE ≠ 0%Z →
  (sectionLevel (opts w) ≤ max_int)%Z →
  r1 ≡ₚ r2 → r1 ≡ₚ r3 →
  (Z.of_nat (length r1) ≤ max_int)%Z →
  ∃ w', (References_in_order r1 r2 r3 ;; DocumentFooter true) w = Ok (tt, w')
        ∧ out w' = out w ++ section_closes (Z.to_nat (sectionLevel (opts w)))
                   ++ back_markers (docLevel (opts w))
                   ++ reference_section (bs "Informative References")
                        (filter (of_type "i") r2)
                   ++ reference_section (bs "Normative References")
                        (filter (of_type "n") r3)
                   ++ LF ++ bs "</back>" ++ LF ++ bs "</rfc>" ++ LF
        ∧ docLevel (opts w') = DOC_BACK_MATTER.
Proof.
  intros Hon Hmax H12 H13 Hlen.
  destruct (flushed_level (sectionLevel (opts w))) as (Hnone & Hmin & Hle).
  erewrite bind_Ok;
    [|by apply References_in_order_run; [apply standalone_on|..]].
  rewrite decremented_min by done.
  rewrite DocumentFooter_flushes; [|by apply standalone_on|simpl; lia].
  simpl. rewrite ?Hnone, footer_markers_back.
  eexists. split; [reflexivity|]. simpl. rewrite ?Hnone. split; [|done].
  unfold section_closes at 2. simpl. by rewrite <- !app_assoc.
Qed.

(** ** Sequences of headings *)

Lemma Header_titled (h : heading) (w : World) :
  (sectionLevel (opts w) - h_level h + 1 ≤ max_int)%Z →
  Header (Write (h_title h) ;; mret true) (h_level h) (h_id h) w
  = Ok (tt, {| opts := with_sectionLevel (h_level h) (with_ial [] (opts w));
               out := out w
                      ++ section_closes
                           (closes_for (sectionLevel (opts w)) (h_level h))
                      ++ section_open h;
               drains := S (drains w) |}).
Proof.
  intros Hmax. rewrite Header_run. unfold Header_at_title.
  rewrite Header_closes_exact by done. fold (closes_for (sectionLevel (opts w))
                                               (h_level h)).
  run. unfold section_open. f_equal. f_equal. f_equal. by norm_app.
Qed.

Lemma closes_written_count (sl : Z) (hs : list heading) :
  (0 ≤ sl)%Z → Forall (λ h, (1 ≤ h_level h)%Z) hs →
  closes_written sl hs = Z.to_nat sl + length hs + levels_skipped sl hs.
Proof.
  intros Hsl Hall. revert sl Hsl.
  induction Hall as [|h hs Hh _ IH]; intros sl Hsl; simpl; [lia|].
  rewrite IH by lia. unfold closes_for.
  destruct (Z.leb_spec (h_level h) sl); lia.
Qed.

(** X7. For a sequence of headings with levels from 1 on, followed by
    the closing of the open sections: each heading writes the close
    markers its level needs and one open marker, and the flush closes
    as many sections as the level of the last heading.  In total the
    close markers are the sections open at the start, plus one per
    heading, plus one for every level a heading jumps over: the
    markers pair up exactly when no heading is more than one level
    deeper than the one before. *)
Theorem headings_then_flush (hs : list heading) (w : World) :
  let sl := sectionLevel (opts w) in
  (0 ≤ sl ≤ max_int)%Z →
  Forall (λ h, (1 ≤ h_level h ≤ max_int)%Z) hs →
  ∃ w', (headings hs ;; close_sections) w = Ok (tt, w')
        ∧ out w' = out w ++ headings_out sl hs
                   ++ section_closes (Z.to_nat (final_level sl hs))
        ∧ sectionLevel (opts w') = 0%Z
        ∧ closes_written sl hs
          = Z.to_nat sl + length hs + levels_skipped sl hs.
Proof.
  intros sl Hsl Hall.
  assert (Hcount : closes_written sl hs
                   = Z.to_nat sl + length hs + levels_skipped sl hs).
  { apply closes_written_count; [lia|].
    eapply Forall_impl; [exact Hall|]. simpl. lia. }
  cut (∃ w', (headings hs ;; close_sections) w = Ok (tt, w')
             ∧ out w' = out w ++ headings_out sl hs
                        ++ section_closes (Z.to_nat (final_level sl hs))
             ∧ sectionLevel (opts w') = 0%Z).
  { intros (w' & ? & ? & ?). by exists w'. }
  clear Hcount. subst sl. revert w Hsl.
  induction Hall as [|h hs Hh _ IH]; intros w Hsl.
  - unfold headings. simpl for_range.
    erewrite bind_Ok; [|reflexivity]. rewrite close_sections_run.
    eexists. split; [reflexivity|]. simpl.
    split; [done|]. by apply close_sections_reset.
  - unfold headings. simpl for_range. fold (headings hs).
    unfold mbind at 1, M_bind at 1, bind at 1.
    unfold mbind at 1, M_bind at 1, bind at 1.
    rewrite Header_titled by lia.
    set (w1 := {| opts := with_sectionLevel (h_level h) (with_ial [] (opts w));
                  out := _; drains := _ |}).
    destruct (IH w1) as (w' & Hrun & Hout & Hlevel); [simpl; lia|].
    unfold mbind at 1, M_bind at 1, bind at 1 in Hrun.
    destruct (headings hs w1) as [[[] w2]|]; [|done].
    exists w'. split; [exact Hrun|]. split; [|done].
    rewrite Hout. unfold w1.
    cbn [out opts sectionLevel with_sectionLevel headings_out final_level].
    by rewrite <- !app_assoc.
Qed.

(** ** Links and comments *)

(** X8. [Link] reads the first byte of the link: an empty link is an
    index out of range.  Otherwise the target of the reference is the
    link without one leading [#]; the title and the content are not
    written. *)
Theorem Link_target (link title content : list byte) (w : World) :
  (link = [] → Link link title content w = Panic)
  ∧ (∀ c rest, link = c :: rest →
       Link link title content w
       = Ok (tt, set_out (λ b, b ++ bs "<xref target=" ++ DQ
                                 ++ (if decide (c = "#"%byte) then rest
                                     else link)
                                 ++ DQ ++ bs "/>") w)).
Proof.
  split.
  - intros ->. done.
  - intros c rest ->. unfold Link. change 0%Z with (Z.of_nat 0).
    rewrite (at_index_ok _ 0 c) by done.
    erewrite bind_Ok; [|reflexivity]. rewrite byte_eqb_decide.
    destruct (decide (c = "#"%byte)) as [->|Hne].
    + rewrite bool_decide_eq_true_2 by done. change 1%Z with (Z.of_nat 1).
      rewrite slice_from_ok by (simpl; lia).
      destruct w. run. f_equal. f_equal. f_equal. by norm_app.
    + rewrite bool_decide_eq_false_2 by done.
      destruct w. run. f_equal. f_equal. f_equal. by norm_app.
Qed.

Lemma has_prefix_take (sep s : list byte) (n : nat) :
  has_prefix sep (take n s) = true → has_prefix sep s = true.
Proof.
  revert s n. induction sep as [|a sep IH]; intros s n; [done|].
  destruct s as [|b s], n as [|n]; simpl; try done.
  intros [-> Hrest]%andb_prop. simpl. by apply (IH s n).
Qed.

Lemma Index_from_first (sep s : list byte) (i : Z) (k : nat) :
  has_prefix sep (drop k s) = true → k ≤ length s →
  (i ≤ Index_from i s sep ≤ i + Z.of_nat k)%Z.
Proof.
  revert i k. induction s as [|b s IH]; intros i k Hk Hlen; simpl.
  - rewrite drop_nil in Hk. rewrite Hk. lia.
  - destruct (has_prefix sep (b :: s)) eqn:Hhere; [lia|].
    destruct k as [|k]; [simpl in Hk; congruence|].
    simpl in Hk, Hlen. specialize (IH (i + 1)%Z k Hk). lia.
Qed.

Lemma Index_from_occurs (sep s : list byte) (i : Z) :
  (0 ≤ i ≤ Index_from i s sep)%Z →
  has_prefix sep (drop (Z.to_nat (Index_from i s sep - i)) s) = true.
Proof.
  revert i. induction s as [|b s IH]; intros i; simpl.
  - destruct (has_prefix sep []) eqn:Hhere; [|lia].
    intros _. by rewrite Z.sub_diag.
  - destruct (has_prefix sep (b :: s)) eqn:Hhere.
    + intros _. by rewrite Z.sub_diag.
    + intros Hr.
      destruct (Index_from_range s sep (i + 1)) as [Hnone|Hin]; [lia|].
      replace (Z.to_nat (Index_from (i + 1) s sep - i))
        with (S (Z.to_nat (Index_from (i + 1) s sep - (i + 1)))) by lia.
      simpl. apply IH. lia.
Qed.

(** X9. [CommentHtml] ignores everything from the first terminator on,
    when that terminator is not at index 0: the call on the text and
    the call on the text cut before the terminator do the same. *)
Theorem CommentHtml_cut_at_terminator (text : list byte) (w : World) :
  (0 < Index text (bs "-->"))%Z →
  CommentHtml text w
  = CommentHtml (take (Z.to_nat (Index text (bs "-->"))) text) w.
Proof.
  intros Hpos. rewrite !CommentHtml_run. f_equal. f_equal.
  set (i := Index text (bs "-->")) in *.
  set (cut := take (Z.to_nat i) text).
  assert (Hi : (i ≤ Z.of_nat (length text))%Z).
  { destruct (Index_from_range text (bs "-->") 0) as [Hr|Hr];
      fold (Index text (bs "-->")) in Hr; fold i in Hr; lia. }
  assert (Hcut : length cut = Z.to_nat i).
  { unfold cut. rewrite length_take_le; lia. }
  assert (Hbefore : before_terminator text = cut).
  { unfold before_terminator. cbv zeta. fold i.
    by destruct (Z.ltb_spec 0 i); [|lia]. }
  rewrite Hbefore. unfold before_terminator. cbv zeta.
  destruct (Z.ltb_spec 0 (Index cut (bs "-->"))) as [Hk|Hk]; [|done].
  exfalso.
  destruct (Index_from_range cut (bs "-->") 0) as [Hr|Hr];
    fold (Index cut (bs "-->")) in Hr; [lia|].
  pose proof (Index_from_occurs (bs "-->") cut 0) as Hocc.
  fold (Index cut (bs "-->")) in Hocc. rewrite Z.sub_0_r in Hocc.
  specialize (Hocc ltac:(lia)).
  set (k := Z.to_nat (Index cut (bs "-->"))) in *.
  assert (Hkle : k ≤ Z.to_nat i) by lia.
  unfold cut in Hocc.
  replace (Z.to_nat i) with (k + (Z.to_nat i - k)) in Hocc by lia.
  rewrite <- take_drop_commute in Hocc.
  apply has_prefix_take in Hocc.
  destruct (decide (k = Z.to_nat i)) as [Heq|Hne].
  - pose proof (Index_from_occurs (bs "-->") cut 0) as Hend.
    fold (Index cut (bs "-->")) in Hend. rewrite Z.sub_0_r in Hend.
    specialize (Hend ltac:(lia)). fold k in Hend.
    rewrite drop_ge in Hend by lia. done.
  - pose proof (Index_from_first (bs "-->") text 0 k Hocc ltac:(lia)) as Hfirst.
    fold (Index text (bs "-->")) in Hfirst. fold i in Hfirst. lia.
Qed.

(** X10. The language and the caption of a code block, and the title
    of a citation, never change what is written. *)
Theorem unused_arguments (text link : list byte)
    (lang lang' caption caption' title title' : list byte) (w : World) :
  BlockCode text lang caption w = BlockCode text lang' caption' w
  ∧ Citation link title w = Citation link title' w.
Proof.
  split.
  - unfold BlockCode. by destruct lang, lang'.
  - unfold Citation. by destruct (len title =? 0)%Z, (len title' =? 0)%Z.
Qed.

(** ** Definition lists *)

Lemma ListItem_term (text : list byte) (fl : Z) (w : World) :
  Z.land fl LIST_TYPE_TERM ≠ 0%Z →
  ListItem text fl w
  = Ok (tt, set_out (λ b, b ++ (if (Z.land fl LIST_ITEM_BEGINNING_OF_LIST
                                    =? 0)%Z
                                then bs "</t>" ++ LF else [])
                            ++ bs "<t hangText=" ++ DQ ++ text ++ DQ
                            ++ bs ">" ++ LF) w).
Proof.
  intros Hterm. unfold ListItem.
  destruct (Z.eqb_spec (Z.land fl LIST_TYPE_TERM) 0) as [|_]; [done|].
  rewrite andb_false_r. cbn [negb].
  destruct (Z.land fl LIST_ITEM_BEGINNING_OF_LIST =? 0)%Z;
    destruct w; run; f_equal; f_equal; f_equal; by norm_app.
Qed.

Lemma ListItem_definition (text : list byte) (fl : Z) (w : World) :
  Z.land fl LIST_TYPE_DEFINITION ≠ 0%Z →
  Z.land fl LIST_TYPE_TERM = 0%Z →
  ListItem text fl w = Ok (tt, set_out (λ b, b ++ text) w).
Proof.
  intros Hdef Hterm. unfold ListItem. rewrite Hterm.
  by destruct (Z.eqb_spec (Z.land fl LIST_TYPE_DEFINITION) 0) as [|_].
Qed.

Lemma later_items_run (ft fd : Z) (items : list (list byte * list byte))
    (w : World) :
  Z.land ft LIST_TYPE_TERM ≠ 0%Z →
  Z.land ft LIST_ITEM_BEGINNING_OF_LIST = 0%Z →
  Z.land fd LIST_TYPE_DEFINITION ≠ 0%Z →
  Z.land fd LIST_TYPE_TERM = 0%Z →
  definition_items ft ft fd items w
  = Ok (tt, set_out (λ b, b ++ mjoin (map (λ item, bs "</t>" ++ LF
                                             ++ bs "<t hangText=" ++ DQ
                                             ++ item.1 ++ DQ ++ bs ">" ++ LF
                                             ++ item.2) items)) w).
Proof.
  intros Hterm Hbegin Hdef Hnoterm. revert w.
  induction items as [|item items IH]; intros w.
  - destruct w. run. by rewrite app_nil_r.
  - simpl definition_items.
    erewrite bind_Ok; [|by apply ListItem_term].
    erewrite bind_Ok; [|by apply ListItem_definition].
    rewrite IH, Hbegin. destruct w. unfold set_out. simpl.
    f_equal. f_equal. f_equal. by norm_app.
Qed.

Lemma entries_regrouped (items : list (list byte * list byte))
    (rest : list byte) :
  mjoin (map (λ item, bs "</t>" ++ LF ++ bs "<t hangText=" ++ DQ
                      ++ item.1 ++ DQ ++ bs ">" ++ LF ++ item.2) items)
  ++ bs "</t>" ++ LF ++ rest
  = bs "</t>" ++ LF ++ mjoin (map definition_entry items) ++ rest.
Proof.
  induction items as [|item items IH]; [done|].
  change (mjoin (map ?f (item :: items)))
    with (f item ++ mjoin (map f items)).
  change (mjoin (map definition_entry (item :: items)))
    with (definition_entry item ++ mjoin (map definition_entry items)).
  unfold definition_entry at 1. rewrite <- !app_assoc. by rewrite IH.
Qed.

(** X11. A definition list, rendered by [List] with a callback that
    calls [ListItem] for the term and the definition of each entry:
    every term opens a hanging-text element, which stays open over the
    definition and is closed by the next term or, for the last entry,
    by the closing tag of the list.  So each entry is one complete
    element, inside one list container. *)
Theorem definition_list_entries (fl start ft0 ft fd : Z)
    (item : list byte * list byte) (items : list (list byte * list byte))
    (w : World) :
  Z.land fl LIST_TYPE_ORDERED = 0%Z →
  Z.land fl LIST_TYPE_DEFINITION ≠ 0%Z →
  Z.land ft0 LIST_TYPE_TERM ≠ 0%Z →
  Z.land ft0 LIST_ITEM_BEGINNING_OF_LIST ≠ 0%Z →
  Z.land ft LIST_TYPE_TERM ≠ 0%Z →
  Z.land ft LIST_ITEM_BEGINNING_OF_LIST = 0%Z →
  Z.land fd LIST_TYPE_DEFINITION ≠ 0%Z →
  Z.land fd LIST_TYPE_TERM = 0%Z →
  ∃ w', List (definition_items ft0 ft fd (item :: items) ;; mret true)
          fl start w = Ok (tt, w')
        ∧ out w'
          = out w
            ++ (if (Z.land fl LIST_INSIDE_LIST =? 0)%Z then bs "<t>" ++ LF
                else [])
            ++ bs "<list style=" ++ DQ ++ bs "hanging" ++ DQ
            ++ renderIAL (ial (opts w)) ++ bs ">" ++ LF
            ++ mjoin (map definition_entry (item :: items))
            ++ bs "</list>" ++ LF
            ++ (if (Z.land fl LIST_INSIDE_LIST =? 0)%Z then bs "</t>" ++ LF
                else []).
Proof.
  intros Hord Hdef Hterm0 Hbegin0 Hterm Hbegin Hd Hdt.
  rewrite List_run. simpl definition_items.
  erewrite bind_Ok.
  2: { erewrite bind_Ok; [|by apply ListItem_term].
       erewrite bind_Ok; [|by apply ListItem_definition].
       by apply later_items_run. }
  eexists. split; [reflexivity|].
  destruct (Z.eqb_spec (Z.land ft0 LIST_ITEM_BEGINNING_OF_LIST) 0) as [|_];
    [done|].
  unfold set_out, List_at_text, List_open, List_close.
  cbn [out opts ial with_ial].
  rewrite Hord.
  destruct (Z.eqb_spec (Z.land fl LIST_TYPE_DEFINITION) 0) as [|_]; [done|].
  cbn [negb Z.eqb].
  change (mjoin (map definition_entry (item :: items)))
    with (definition_entry item ++ mjoin (map definition_entry items)).
  unfold definition_entry at 1.
  rewrite <- !app_assoc. rewrite !app_nil_l.
  by rewrite entries_regrouped.
Qed.

(** ** The title block *)

Lemma for_range_writes {A} (xs : list A) (body : A → M unit)
    (f : A → list byte) (w : World) :
  (∀ x v, body x v = Ok (tt, set_out (λ b, b ++ f x) v)) →
  for_range xs body w = Ok (tt, set_out (λ b, b ++ mjoin (map f xs)) w).
Proof.
  intros Hbody. revert w. induction xs as [|x xs IH]; intros w.
  - destruct w. run. by rewrite app_nil_r.
  - simpl for_range. erewrite bind_Ok; [|apply Hbody]. rewrite IH.
    destruct w. unfold set_out. simpl. by rewrite <- app_assoc.
Qed.

(** X12. With the standalone flag set, [TitleBlockTOML] called without
    a title block dereferences a nil pointer.  Called with one, it
    keeps the block in the renderer and writes the opening of the
    document and of the front container, the title, one author element
    per author and one keyword element per keyword, in their order, and
    a date that has only its positive parts; it leaves the front
    container open and the document level as it is. *)
Theorem TitleBlockTOML_standalone (w : World) :
  Z.land (flags (opts w)) XML_STANDALONE ≠ 0%Z →
  TitleBlockTOML None w = Panic
  ∧ ∀ tb, TitleBlockTOML (Some tb) w
          = Ok (tt, {| opts := with_titleBlock (Some tb) (opts w);
                       out := out w
                              ++ bs "<rfc ipr=" ++ DQ ++ Ipr tb ++ DQ
                              ++ bs " category=" ++ DQ ++ Category tb ++ DQ
                              ++ bs " docName=" ++ DQ ++ DocName tb ++ DQ
                              ++ bs ">" ++ LF
                              ++ bs "<front>" ++ LF
                              ++ bs "<title abbrev=" ++ DQ ++ Abbrev tb ++ DQ
                              ++ bs ">" ++ Title tb ++ bs "</title>" ++ LF ++ LF
                              ++ mjoin (map author_element (Author tb))
                              ++ date_element (Date tb)
                              ++ bs "<area>" ++ Area tb ++ bs "</area>" ++ LF
                              ++ bs "<workgroup>" ++ Workgroup tb
                              ++ bs "</workgroup>" ++ LF
                              ++ mjoin (map keyword_element (Keyword tb))
                              ++ LF;
                       drains := drains w |}).
Proof.
  intros Hon%standalone_on. split.
  - unfold TitleBlockTOML. erewrite bind_Ok; [|reflexivity]. by rewrite Hon.
  - intros tb. unfold TitleBlockTOML.
    erewrite bind_Ok; [|reflexivity]. rewrite Hon.
    erewrite bind_Ok; [|reflexivity].
    erewrite bind_Ok; [|reflexivity].
    do 4 (erewrite bind_Ok; [|reflexivity]).
    erewrite bind_Ok.
    2: { apply (for_range_writes _ _ author_element). intros a v.
         destruct v. unfold author_element. run.
         f_equal. f_equal. f_equal. by norm_app. }
    cbv zeta.
    do 3 (erewrite bind_Ok; [|reflexivity]).
    erewrite bind_Ok.
    2: { apply (for_range_writes _ _ keyword_element). intros k v.
         by destruct v. }
    destruct w. unfold date_element. run.
    f_equal. f_equal. f_equal. by norm_app.
Qed.

(** ** Lists of plain items *)



End Further.

(** ** The primitives on concrete inputs *)

Example Index_finds_terminator :
  Index (bs "<!-- a -->") (bs "-->") = 7%Z
  ∧ Index (bs "<!-- a") (bs "-->") = (-1)%Z
  ∧ Index (bs "-->") (bs "-->") = 0%Z.
Proof. done. Qed.

Example slices_check_bounds :
  slice_from (bs "<!") 4 = Panic
  ∧ slice_from (bs "<!--") 4 = Ok []
  ∧ slice_to (bs "abc") 2 = Ok (bs "ab")
  ∧ at_index (bs "abc") 3 = Panic.
Proof. done. Qed.

Example Truncate_checks_range :
  Truncate 3 Sample.deep
  = Ok (tt, set_out (λ _, bs "<t>") Sample.deep)
  ∧ Truncate 13 Sample.deep = Panic.
Proof. done. Qed.

(** ** Documents *)

(** Headings at levels 1, 2, 2, 1 on a fresh renderer: open, open, close
    and open, two closes and open; one section is open at the end. *)
Example headings_1_2_2_1 :
  (Header Sample.intro 1 (bs "a") ;; Header Sample.intro 2 (bs "b") ;;
   Header Sample.intro 2 (bs "c") ;; Header Sample.intro 1 (bs "d"))
    {| opts := Xml2Renderer 1; out := []; drains := 0 |}
  = Ok (tt, {| opts := with_sectionLevel 1 (Xml2Renderer 1);
               out := LF ++ bs "<section anchor=" ++ DQ ++ bs "a" ++ DQ
                      ++ bs " title=" ++ DQ ++ bs "Intro" ++ DQ ++ bs ">" ++ LF
                      ++ LF ++ bs "<section anchor=" ++ DQ ++ bs "b" ++ DQ
                      ++ bs " title=" ++ DQ ++ bs "Intro" ++ DQ ++ bs ">" ++ LF
                      ++ bs "</section>" ++ LF
                      ++ LF ++ bs "<section anchor=" ++ DQ ++ bs "c" ++ DQ
                      ++ bs " title=" ++ DQ ++ bs "Intro" ++ DQ ++ bs ">" ++ LF
                      ++ bs "</section>" ++ LF ++ bs "</section>" ++ LF
                      ++ LF ++ bs "<section anchor=" ++ DQ ++ bs "d" ++ DQ
                      ++ bs " title=" ++ DQ ++ bs "Intro" ++ DQ ++ bs ">" ++ LF;
               drains := 4 |}).
Proof. by vm_compute. Qed.

(** An ordered list that starts at 5 carries the pending attributes and
    the start value in its tag. *)
Example List_ordered_from_5 :
  List Sample.hello 1 5 Sample.deep
  = Ok (tt, {| opts := with_ial [] (opts Sample.deep);
               out := bs "<t>text</t>" ++ LF ++ bs "<t>" ++ LF
                      ++ bs "<list style=" ++ DQ ++ bs "numbers" ++ DQ
                      ++ bs " anchor=" ++ DQ ++ bs "a1" ++ DQ
                      ++ bs " start=" ++ DQ ++ bs "5" ++ DQ ++ bs ">" ++ LF
                      ++ bs "hello" ++ bs "</list>" ++ LF ++ bs "</t>" ++ LF;
               drains := 1 |}).
Proof. by vm_compute. Qed.

(** The citations of [Sample.cited], flushed from front matter. *)
Example References_from_front :
  ∃ w', References_in_order (map_to_list Sample.cited)
          (map_to_list Sample.cited) (map_to_list Sample.cited)
          Sample.in_front = Ok (tt, w')
        ∧ out w'
          = bs "<t>text</t>" ++ LF ++ bs "</section>" ++ LF
            ++ bs "</section>" ++ LF ++ bs "</section>" ++ LF
            ++ bs "</front>" ++ LF ++ bs "<back>" ++ LF
            ++ bs "<references title=" ++ DQ ++ bs "Informative References"
            ++ DQ ++ bs ">" ++ LF
            ++ TAB ++ bs "<?rfc include=" ++ DQ ++ bs "bib/rfc7322.xml" ++ DQ
            ++ bs "?>" ++ LF ++ bs "</references>" ++ LF
            ++ bs "<references title=" ++ DQ ++ bs "Normative References"
            ++ DQ ++ bs ">" ++ LF
            ++ TAB ++ bs "<?rfc include=" ++ DQ ++ bs "reference.RFC2119.xml"
            ++ DQ ++ bs "?>" ++ LF ++ bs "</references>" ++ LF.
Proof. eexists. split; by vm_compute. Qed.

(** ** The properties at concrete inputs *)

Lemma Header_closes_then_opens_witness :
  ∃ w3, Header Sample.intro 2 (bs "intro") Sample.deep = Ok (tt, w3)
        ∧ out w3 = bs "<t>text</t>" ++ LF ++ bs "</section>" ++ LF
                   ++ bs "</section>" ++ LF ++ LF ++ bs "<section anchor="
                   ++ DQ ++ bs "intro" ++ DQ ++ bs " title=" ++ DQ
                   ++ bs "Intro" ++ DQ ++ bs ">" ++ LF
        ∧ sectionLevel (opts w3) = 2%Z.
Proof.
  refine (Header_closes_then_opens Sample.intro 2 (bs "intro") Sample.deep
            true _ _ eq_refl).
  vm_compute. discriminate.
Defined.

Lemma not_standalone_no_wrapper_witness :
  DocumentHeader true Sample.embedded = Ok (tt, Sample.embedded)
  ∧ DocumentFooter true Sample.embedded = Ok (tt, Sample.embedded)
  ∧ TitleBlockTOML None Sample.embedded = Ok (tt, Sample.embedded)
  ∧ References Sample.cited Sample.embedded (Ok (tt, Sample.embedded))
  ∧ ∀ r, References Sample.cited Sample.embedded r
         → r = Ok (tt, Sample.embedded).
Proof.
  exact (not_standalone_no_wrapper Sample.embedded true None Sample.cited
           eq_refl).
Defined.


Lemma DocumentMatter_front_to_back_witness :
  ∃ w', DocumentMatter 3 Sample.in_front = Ok (tt, w')
        ∧ out w' = bs "<t>text</t>" ++ LF ++ bs "</section>" ++ LF
                   ++ bs "</section>" ++ LF ++ bs "</section>" ++ LF
                   ++ LF ++ bs "</middle>" ++ LF ++ bs "<back>" ++ LF
        ∧ docLevel (opts w') = 3%Z.
Proof. exact (DocumentMatter_front_to_back Sample.in_front eq_refl). Defined.

Lemma DocumentMatter_same_phase_witness :
  ∃ w', DocumentMatter 2 Sample.deep = Ok (tt, w')
        ∧ out w' = bs "<t>text</t>" ++ LF ++ bs "</section>" ++ LF
                   ++ bs "</section>" ++ LF ++ bs "</section>" ++ LF
                   ++ bs "</front>" ++ LF ++ LF ++ bs "<middle>" ++ LF
        ∧ ((0 ≤ 3 ≤ max_int)%Z → sectionLevel (opts w') = 0%Z).
Proof. exact (proj1 (DocumentMatter_same_phase Sample.deep) eq_refl). Defined.

Lemma empty_block_rolled_back_witness :
  ∃ w3, List Sample.nothing 1 5 Sample.deep = Ok (tt, w3)
        ∧ length (out w3) = length (out Sample.deep).
Proof.
  destruct (proj1 (empty_block_rolled_back 1 5 Sample.deep))
    as (w1 & opening & Hout & Hroll).
  destruct (Hroll Sample.nothing w1 eq_refl) as (w3 & Hrun & Hlen & _).
  - rewrite Hout, length_app. lia.
  - exists w3. by split.
Defined.

(** With the standalone flag off nothing is written for the citations;
    with it on, a citation that is neither informative nor normative is
    in no reference section. *)
Lemma References_without_sections :
  References Sample.cited Sample.embedded (Ok (tt, Sample.embedded))
  ∧ References Sample.stray Sample.deep
      (Ok (tt, {| opts := with_docLevel 3 (with_sectionLevel 0
                                             (opts Sample.deep));
                  out := bs "<t>text</t>" ++ LF ++ bs "</section>" ++ LF
                         ++ bs "</section>" ++ LF ++ bs "</section>" ++ LF
                         ++ bs "</middle>" ++ LF ++ bs "<back>" ++ LF;
                  drains := 0 |})).
Proof.
  split.
  - apply (References_runs Sample.cited Sample.embedded).
  - exists [("RFC1"%string, Sample.untyped)], [("RFC1"%string, Sample.untyped)],
           [("RFC1"%string, Sample.untyped)].
    unfold Sample.stray. rewrite map_to_list_singleton. by vm_compute.
Qed.

Lemma References_groups_witness :
  ∃ w' informative normative,
    References_in_order (map_to_list Sample.cited) (map_to_list Sample.cited)
      (map_to_list Sample.cited) Sample.in_front = Ok (tt, w')
    ∧ Forall (λ kc, typ kc.2 = "i"%byte) informative
    ∧ Forall (λ kc, typ kc.2 = "n"%byte) normative
    ∧ informative ++ normative ≡ₚ map_to_list Sample.cited
    ∧ list_to_set (informative ++ normative).*1 = dom Sample.cited
    ∧ out w' = out Sample.in_front
               ++ section_closes (Z.to_nat (sectionLevel (opts Sample.in_front)))
               ++ back_markers (docLevel (opts Sample.in_front))
               ++ reference_section (bs "Informative References") informative
               ++ reference_section (bs "Normative References") normative
    ∧ (Sample.cited = ∅ → informative = [] ∧ normative = []).
Proof.
  refine (References_groups Sample.cited Sample.in_front _ _ _ _
            (References_runs Sample.cited Sample.in_front)).
  - vm_compute. discriminate.
  - unfold Sample.cited. intros k c.
    rewrite lookup_insert_Some, lookup_singleton_Some.
    intros [[_ <-]|[_ [_ <-]]]; [by right|by left].
  - vm_compute. discriminate.
Defined.

Lemma CommentHtml_source_witness :
  ∃ w', CommentHtml (bs "<!-- rfc1234: some note text-->") Sample.deep
        = Ok (tt, w')
        ∧ opts w' = opts Sample.deep
        ∧ out w' = out Sample.deep ++ bs "<t><cref source=" ++ DQ
                   ++ bs "rfc1234" ++ DQ ++ bs ">" ++ bs " some note text"
                   ++ bs "</cref></t>" ++ LF.
Proof.
  refine (CommentHtml_source (bs "<!-- rfc1234: some note text-->")
            (bs " rfc1234: some note text") Sample.deep _ eq_refl).
  vm_compute. lia.
Defined.

(** A payload that starts with the colon: the colon is among the first
    20 bytes, and no [source] attribute is written. *)
Lemma CommentHtml_leading_colon :
  CommentHtml (bs "<!--: some note text-->") Sample.deep
  = Ok (tt, {| opts := opts Sample.deep;
               out := out Sample.deep ++ bs "<t><cref>" ++ LF
                      ++ bs " some note text" ++ bs "</cref></t>" ++ LF;
               drains := 0 |}).
Proof. by vm_compute. Qed.

Lemma Header_never_rolled_back_witness :
  ∃ w3, Header Sample.nothing 2 (bs "intro") Sample.deep = Ok (tt, w3)
        ∧ sectionLevel (opts w3) = 2%Z
        ∧ length (out Sample.deep) < length (out w3).
Proof.
  destruct (Header_never_rolled_back 2 (bs "intro") Sample.deep)
    as (n & w1 & Hout & Hrun).
  destruct (Hrun Sample.nothing false w1 eq_refl) as (w3 & Hw3 & _ & Hsl & Hlen).
  exists w3. split; [done|]. split; [done|]. by apply Hlen.
Defined.

Lemma CommentHtml_bounds_witness :
  CommentHtml (bs "<!-->") Sample.deep = Panic.
Proof.
  apply (proj1 (proj2 (CommentHtml_bounds (bs "<!-->") Sample.deep))).
  vm_compute. lia.
Defined.

(** ** The further properties at concrete inputs *)

Lemma attributes_wait_for_next_drain_witness :
  ∃ w' written,
    (SetIAL [[(bs "align", bs "left")]] ;; Paragraph Sample.hello 0 ;;
     Table (bs "<ttcol>h</ttcol>") (bs "<c>b</c>") [] []) Sample.deep
    = Ok (tt, w')
    ∧ out w' = out Sample.deep ++ written ++ bs "<texttable"
               ++ renderIAL (ial (opts Sample.deep)
                             ++ [[(bs "align", bs "left")]])
               ++ bs ">" ++ LF ++ bs "<ttcol>h</ttcol>" ++ bs "<c>b</c>"
               ++ bs "</texttable>" ++ LF
    ∧ ial (opts w') = [].
Proof.
  refine (proj1 (attributes_wait_for_next_drain [[(bs "align", bs "left")]]
                   Sample.hello 0 (bs "q") (bs "<ttcol>h</ttcol>")
                   (bs "<c>b</c>") [] [] Sample.deep _)).
  intros v. by exists true, (bs "hello").
Defined.

Lemma rolled_back_List_consumes_attributes_witness :
  List Sample.discarded 0 1 Sample.deep
  = Ok (tt, {| opts := with_ial [] (opts Sample.deep);
               out := out Sample.deep; drains := 1 |})
  ∧ Paragraph Sample.discarded 0 Sample.deep = Ok (tt, Sample.deep).
Proof.
  refine (rolled_back_List_consumes_attributes Sample.discarded 0 1
            Sample.deep _).
  intros v. by exists (bs "x").
Defined.

Lemma divisions_in_document_order_witness :
  ∃ w', (DocumentMatter 2 ;; DocumentMatter 3 ;; DocumentFooter true)
          Sample.in_front = Ok (tt, w')
        ∧ out w' = bs "<t>text</t>" ++ LF ++ section_closes 3
                   ++ (bs "</front>" ++ LF ++ LF ++ bs "<middle>" ++ LF)
                   ++ (LF ++ bs "</middle>" ++ LF ++ bs "<back>" ++ LF)
                   ++ (LF ++ bs "</back>" ++ LF ++ bs "</rfc>" ++ LF)
        ∧ docLevel (opts w') = 3%Z
        ∧ sectionLevel (opts w') = 0%Z.
Proof.
  refine (divisions_in_document_order Sample.in_front _ _);
    by vm_compute.
Defined.

Lemma flush_is_idempotent_witness :
  ∃ w1 w2, DocumentMatter 2 Sample.deep = Ok (tt, w1)
           ∧ DocumentMatter 1 w1 = Ok (tt, w2)
           ∧ out w2 = out w1
           ∧ sectionLevel (opts w2) = sectionLevel (opts w1)
           ∧ docLevel (opts w2) = 1%Z.
Proof. refine (flush_is_idempotent 2 Sample.deep _). by vm_compute. Defined.

Lemma References_then_footer_witness :
  ∃ w', (References_in_order (map_to_list Sample.cited)
           (map_to_list Sample.cited) (map_to_list Sample.cited) ;;
         DocumentFooter true) Sample.in_front = Ok (tt, w')
        ∧ out w' = out Sample.in_front ++ section_closes 3
                   ++ back_markers 1
                   ++ reference_section (bs "Informative References")
                        (filter (of_type "i") (map_to_list Sample.cited))
                   ++ reference_section (bs "Normative References")
                        (filter (of_type "n") (map_to_list Sample.cited))
                   ++ LF ++ bs "</back>" ++ LF ++ bs "</rfc>" ++ LF
        ∧ docLevel (opts w') = 3%Z.
Proof.
  refine (References_then_footer (map_to_list Sample.cited)
            (map_to_list Sample.cited) (map_to_list Sample.cited)
            Sample.in_front _ _ _ _ _);
    try reflexivity; by vm_compute.
Defined.

Lemma headings_then_flush_witness :
  ∃ w', (headings Sample.jumping ;; close_sections) Sample.fresh = Ok (tt, w')
        ∧ out w' = out Sample.fresh ++ headings_out 0 Sample.jumping
                   ++ section_closes 3
        ∧ sectionLevel (opts w') = 0%Z
        ∧ closes_written 0 Sample.jumping
          = 0 + 2 + levels_skipped 0 Sample.jumping.
Proof.
  refine (headings_then_flush Sample.jumping Sample.fresh _ _).
  - by vm_compute.
  - repeat (constructor; [by vm_compute|]). constructor.
Defined.

Lemma CommentHtml_cut_at_terminator_witness :
  CommentHtml (bs "<!-- note --> and more -->") Sample.deep
  = CommentHtml (bs "<!-- note ") Sample.deep.
Proof.
  refine (CommentHtml_cut_at_terminator (bs "<!-- note --> and more -->")
            Sample.deep _).
  by vm_compute.
Defined.

Lemma definition_list_entries_witness :
  ∃ w', List (definition_items 22 6 2 Sample.glossary ;; mret true)
          2 0 Sample.deep = Ok (tt, w')
        ∧ out w'
          = out Sample.deep ++ (bs "<t>" ++ LF)
            ++ bs "<list style=" ++ DQ ++ bs "hanging" ++ DQ
            ++ renderIAL (ial (opts Sample.deep)) ++ bs ">" ++ LF
            ++ mjoin (map definition_entry Sample.glossary)
            ++ bs "</list>" ++ LF ++ (bs "</t>" ++ LF).
Proof.
  refine (definition_list_entries 2 0 22 6 2 (bs "IAL", bs "inline attribute list")
            [(bs "RFC", bs "a document")] Sample.deep _ _ _ _ _ _ _ _);
    by vm_compute.
Defined.

Lemma TitleBlockTOML_standalone_witness :
  TitleBlockTOML None Sample.fresh = Panic
  ∧ ∃ w', TitleBlockTOML (Some Sample.block) Sample.fresh = Ok (tt, w')
          ∧ titleBlock (opts w') = Some Sample.block
          ∧ docLevel (opts w') = 0%Z.
Proof.
  destruct (TitleBlockTOML_standalone Sample.fresh) as [Hnil Hblock];
    [by vm_compute|].
  split; [exact Hnil|]. eexists. split; [apply Hblock|]. done.
Defined.


(** The outline 1, 2, 2, 1 jumps over no level: its close markers,
    the final flush included, are as many as its open markers. *)
Example outline_pairs_up :
  levels_skipped 0 Sample.outline = 0
  ∧ closes_written 0 Sample.outline = length Sample.outline
  ∧ levels_skipped 0 Sample.jumping = 1
  ∧ closes_written 0 Sample.jumping = S (length Sample.jumping).
Proof. done. Qed.
